(** * News-analyst RAG pipeline: agent (src/agent.py) and ingestion (src/main.py)

    A shallow embedding of the query-time agent, of the ingestion loop and of
    the sampler (src/data/data_loader.py), with the external services
    (embedding model, vector index, Firestore, generative model, spaCy, the
    NL API, pandas) taken as oracles of an environment record.  Python code
    that can raise is modelled in a state-and-exception monad over a world
    holding the Firestore collection, the vector index and the trace of
    external calls made so far. *)

From Stdlib Require Import ZArith QArith String Ascii List Lia.
From stdpp Require Import base option list gmap strings pretty.

Local Open Scope string_scope.
Local Open Scope Z_scope.
Local Open Scope list_scope.

(** ** Python strings *)

Module PyStr.

(** The line feed and the double quote, built from their codes. *)
Definition nl : string := String (ascii_of_nat 10) EmptyString.
Definition dq : string := String (ascii_of_nat 34) EmptyString.

(** [str.isspace] on one character, for code points below 256:
    tab .. carriage return, the four separators 28 .. 31, the space,
    NEL (133) and the no-break space (160). *)
Definition isspace (c : ascii) : bool :=
  let n := nat_of_ascii c in
  ((9 <=? n)%nat && (n <=? 13)%nat)
  || ((28 <=? n)%nat && (n <=? 32)%nat)
  || (n =? 133)%nat || (n =? 160)%nat.

Fixpoint lstrip (s : string) : string :=
  match s with
  | EmptyString => EmptyString
  | String c s' => if isspace c then lstrip s' else s
  end.

Fixpoint rstrip (s : string) : string :=
  match s with
  | EmptyString => EmptyString
  | String c s' =>
      match rstrip s' with
      | EmptyString => if isspace c then EmptyString else String c EmptyString
      | r => String c r
      end
  end.

(** [s.strip()] with no argument. *)
Definition strip (s : string) : string := rstrip (lstrip s).

(** [s.split()] with no argument: the maximal runs of non-space characters.
    [cur] is the run being read, if one is open. *)
Fixpoint split_from (s : string) (cur : option string) : list string :=
  match s with
  | EmptyString => match cur with Some w => [w] | None => [] end
  | String c s' =>
      if isspace c then
        match cur with
        | Some w => w :: split_from s' None
        | None => split_from s' None
        end
      else split_from s' (Some (default EmptyString cur +:+ String c EmptyString))
  end.

Definition split (s : string) : list string := split_from s None.

(** [sep.join(parts)]. *)
Definition join (sep : string) (parts : list string) : string :=
  String.concat sep parts.

End PyStr.

(** ** Values stored in Firestore *)

(** A Python float is carried around and never inspected by this code. *)
Definition float : Type := Q.

(** JSON-like values: what [json.loads] returns and what a Firestore field
    holds.  A nested dict keeps its insertion order. *)
#[warnings="-register-all"] Inductive value : Type :=
| VNone
| VBool (b : bool)
| VInt (z : Z)
| VFloat (f : float)
| VStr (s : string)
| VList (l : list value)
| VDict (d : list (string * value)).

(** A Firestore document: field name to value. *)
Abbreviation doc := (gmap string value).

Abbreviation embedding := (list float).

(** ** Exceptions, outcomes, the world *)

(** The subclasses of [Exception] the code raises or tells apart, and
    [ServiceError] for any other [Exception] of a client library.  What is
    not an [Exception] (KeyboardInterrupt) is not an [exn]: no handler
    written [except Exception] lets an [exn] through. *)
Inductive exn : Type :=
| ValueError (msg : string)
| ServiceError (msg : string)
| JSONDecodeError (msg : string)
| UnboundLocalError (msg : string)
| KeyError (key : string)
| EOFError (msg : string).

Inductive outcome (A : Type) : Type :=
| Ret (a : A)
| Raise (e : exn).
Arguments Ret {A} a.
Arguments Raise {A} e.

(** The external calls the properties talk about. *)
Inductive event : Type :=
| EvEmbed (text : string)
| EvFindNeighbors (q : embedding) (k : Z)
| EvDocGet (id : string)
| EvDocSet (id : string) (d : doc)
| EvUpsert (id : string) (v : embedding)
| EvGenerate (prompt : string) (json_mode : bool).

Definition is_doc_get (e : event) : bool :=
  match e with EvDocGet _ => true | _ => false end.
Definition is_doc_set (e : event) : bool :=
  match e with EvDocSet _ _ => true | _ => false end.
Definition is_upsert (e : event) : bool :=
  match e with EvUpsert _ _ => true | _ => false end.
Definition is_generate (e : event) : bool :=
  match e with EvGenerate _ _ => true | _ => false end.
Definition is_write (e : event) : bool := is_doc_set e || is_upsert e.

(** Number of calls of one kind in a trace. *)
Definition calls (p : event -> bool) (t : list event) : nat :=
  length (List.filter p t).

Record world : Type := World {
  store : gmap string doc;        (* the Firestore collection *)
  index : gmap string embedding;  (* datapoints of the vector index *)
  trace : list event              (* external calls, oldest first *)
}.

Definition log (e : event) (w : world) : world :=
  World (store w) (index w) (trace w ++ [e]).

(** Rows of the XSum data frame, entities as the extractors return them. *)
Record Row : Type := mkRow {
  row_id : value;
  row_document : string;
  row_summary : string
}.

Record Neighbor : Type := mkNeighbor {
  nb_id : string;
  nb_distance : float
}.

Record NlEntity : Type := mkNlEntity {
  ent_name : string;
  ent_type_name : string;
  ent_salience : float;
  ent_metadata : gmap string string
}.

Record SpacyEnt : Type := mkSpacyEnt {
  ent_text : string;
  ent_label_ : string
}.

(** The external collaborators.  An oracle that returns [Raise] stands for
    the client call raising (a transport error, or the handle being [None]
    after a failed start-up in core/connections.py). *)
Record Env : Type := mkEnv {
  (* embedding_model.get_embeddings([text])[0].values *)
  get_embeddings : string -> outcome embedding;
  (* index_endpoint.find_neighbors(queries=[q], num_neighbors=k)[0] *)
  find_neighbors : gmap string embedding -> embedding -> Z -> outcome (list Neighbor);
  (* generative_model.generate_content(prompt[, json mode]).text *)
  generate_content : string -> bool -> outcome string;
  (* when the line above raises: whether the call itself returned, so that
     the local variable response is bound and it is reading .text that raises *)
  response_bound : string -> bool -> bool;
  (* the interpreter's message for reading a local variable that is unbound *)
  unbound_local_message : string -> string;
  (* docs_ref.document(id).get() / .set(...) raising *)
  firestore_get_fault : string -> option exn;
  firestore_set_fault : string -> option exn;
  (* my_index.upsert_datapoints raising *)
  upsert_fault : string -> embedding -> option exn;
  (* truthiness of index_endpoint and of nlp_spacy *)
  index_endpoint_ok : bool;
  nlp_spacy_ok : bool;
  (* nlp_spacy(text)._.textrank.summary(limit_sentences=k), the sentences' text *)
  textrank_sentences : string -> Z -> outcome (list string);
  (* nlp_spacy(text).ents *)
  spacy_ents : string -> outcome (list SpacyEnt);
  (* LanguageServiceClient().analyze_entities(...).entities *)
  analyze_entities : string -> outcome (list NlEntity);
  (* group 2 of the fenced-json regular expression, when it matches *)
  re_search_fence : string -> option string;
  (* json.loads; None is JSONDecodeError *)
  json_loads : string -> option value;
  (* str() of a value that is not a str *)
  py_repr : value -> string;
  (* download_blob_as_string followed by pd.read_json *)
  read_dataset : outcome (list Row);
  (* DataFrame.sample(n=n, random_state=seed) *)
  df_sample : Z -> Z -> list Row -> outcome (list Row);
  gcs_bucket_name : string
}.

(** [str(v)]: a str is returned as it is. *)
Definition py_str (E : Env) (v : value) : string :=
  match v with
  | VStr s => s
  | _ => py_repr E v
  end.

(** ** The monad *)

Definition M (A : Type) : Type := world -> outcome A * world.

Definition ret {A} (a : A) : M A := fun w => (Ret a, w).
Definition raise {A} (e : exn) : M A := fun w => (Raise e, w).

Definition bind {A B} (m : M A) (k : A -> M B) : M B :=
  fun w =>
    match m w with
    | (Ret a, w') => k a w'
    | (Raise e, w') => (Raise e, w')
    end.

(** Runs [m] and hands its outcome over: the body of a [try]. *)
Definition attempt {A} (m : M A) : M (outcome A) :=
  fun w => let '(r, w') := m w in (Ret r, w').

(** [try: m  except Exception as e: h e]. *)
Definition try_except {A} (m : M A) (h : exn -> M A) : M A :=
  bind (attempt m) (fun r => match r with Ret a => ret a | Raise e => h e end).

Declare Scope py_scope.
Delimit Scope py_scope with py.
Notation "x <- m ;; k" := (bind m (fun x => k))
  (at level 100, m at next level, right associativity) : py_scope.
Notation "m ;; k" := (bind m (fun _ => k))
  (at level 100, right associativity) : py_scope.
Local Open Scope py_scope.

(** An external call that returns [r]; the call is recorded. *)
Definition call {A} (e : event) (r : outcome A) : M A :=
  fun w => (r, log e w).

(** [for x in xs: body x], where the body may raise. *)
Fixpoint for_each {A} (body : A -> M unit) (xs : list A) : M unit :=
  match xs with
  | [] => ret tt
  | x :: rest => body x ;; for_each body rest
  end.

(** ** Prompt templates (src/core/prompts.py) *)

Module Prompts.
Import PyStr.

(** [NEWS_ANALYST_PROMPT.format(query=..., context_str=...)], line by line. *)
Definition NEWS_ANALYST_PROMPT (query context_str : string) : string :=
  join nl [
    "";
    "        You are an expert News Analyst. Your task is to provide a clear, factual, and synthesized answer to the user's question.";
    "        Base your answer *exclusively* on the provided news article sources.";
    "        Do not use any external knowledge.";
    "        When you use information from a source, cite it at the end of the sentence using its ID (e.g., [document-id-123]).";
    "        If the sources do not contain enough information to answer the question, state that clearly.";
    "";
    "        **User's Question:**";
    "        " +:+ query;
    "";
    "        **Provided Sources:**";
    "        " +:+ context_str;
    "";
    "        **Synthesized News Report:**";
    ""
  ].

(** [ENTITY_EXTRACTION_PROMPT.format(text_content=...)]. *)
Definition ENTITY_EXTRACTION_PROMPT (text_content : string) : string :=
  join nl [
    "";
    "        **Instruction:**";
    "        From the news article provided below, extract the key information.";
    "";
    "        **JSON Schema to follow:**";
    "        - " +:+ dq +:+ "main_event_or_topic" +:+ dq +:+ ": A concise string describing the central event or subject of the article.";
    "        - " +:+ dq +:+ "key_people" +:+ dq +:+ ": A list of key individuals mentioned.";
    "        - " +:+ dq +:+ "key_organizations" +:+ dq +:+ ": A list of key organizations, companies, or government bodies.";
    "        - " +:+ dq +:+ "key_locations" +:+ dq +:+ ": A list of key locations mentioned.";
    "        - " +:+ dq +:+ "dates_and_times" +:+ dq +:+ ": A list of specific dates or timeframes mentioned.";
    "        - " +:+ dq +:+ "quantitative_information" +:+ dq +:+ ": A list of important numbers, figures, or statistics (e.g., money, percentages, counts).";
    "        - " +:+ dq +:+ "outcome_or_impact" +:+ dq +:+ ": A brief string describing the result, consequence, or impact of the main event.";
    "";
    "        **Article:**";
    "        " +:+ text_content;
    ""
  ].

(** [GEMINI_SUMMARIZATION_PROMPT.format(text_content=...)]. *)
Definition GEMINI_SUMMARIZATION_PROMPT (text_content : string) : string :=
  join nl [
    "**Instruction:**";
    "Your task is to write a single, high-quality sentence that summarizes the main point of the news article provided. The sentence should be written as if it were the first sentence of the article itself.";
    "";
    "**Constraints:**";
    "- The summary MUST be a single, complete sentence.";
    "- It must be written in the third person.";
    "- It must be highly factual and grounded in the provided text.";
    "- Do not use introductory phrases like " +:+ dq +:+ "This article discusses..." +:+ dq +:+ " or " +:+ dq +:+ "The document is about..." +:+ dq +:+ ".";
    "";
    "**Article:**";
    text_content;
    "";
    "**One-Sentence Summary:**";
    ""
  ].

End Prompts.

(** ** Firestore and the other clients as monadic calls *)

(** [docs_ref.document(id).get()]: [None] when [doc.exists] is false. *)
Definition firestore_get (E : Env) (id : string) : M (option doc) :=
  fun w =>
    match firestore_get_fault E id with
    | Some e => (Raise e, log (EvDocGet id) w)
    | None => (Ret (store w !! id), log (EvDocGet id) w)
    end.

(** [docs_ref.document(id).set(d)]: a full overwrite of the document. *)
Definition firestore_set (E : Env) (id : string) (d : doc) : M unit :=
  fun w =>
    match firestore_set_fault E id with
    | Some e => (Raise e, log (EvDocSet id d) w)
    | None =>
        (Ret tt, World (<[id := d]> (store w)) (index w) (trace w ++ [EvDocSet id d]))
    end.

(** [my_index.upsert_datapoints([{datapoint_id: id, feature_vector: v}])]. *)
Definition upsert_datapoints (E : Env) (id : string) (v : embedding) : M unit :=
  fun w =>
    match upsert_fault E id v with
    | Some e => (Raise e, log (EvUpsert id v) w)
    | None =>
        (Ret tt, World (store w) (<[id := v]> (index w)) (trace w ++ [EvUpsert id v]))
    end.

Definition embed (E : Env) (text : string) : M embedding :=
  call (EvEmbed text) (get_embeddings E text).

Definition neighbors (E : Env) (q : embedding) (k : Z) : M (list Neighbor) :=
  fun w => (find_neighbors E (index w) q k, log (EvFindNeighbors q k) w).

Definition generate (E : Env) (prompt : string) (json_mode : bool) : M string :=
  call (EvGenerate prompt json_mode) (generate_content E prompt json_mode).

(** ** The agent (src/agent.py, class NewsAnalystAgent) *)

(** One entry of the context bundle: the dict with keys id, summary, key_info. *)
Record ContextEntry : Type := mkContextEntry {
  ctx_id : string;
  ctx_summary : value;
  ctx_key_info : string
}.

Definition NO_SUMMARY : string := "No summary available.".
Definition NO_KEY_INFO : string := "No key information extracted.".
Definition NO_ARTICLES_MESSAGE : string :=
  "I'm sorry, I could not find any relevant news articles for your query.".
Definition NO_CONTENT_MESSAGE : string :=
  "I found some article references, but I was unable to retrieve their content from the database.".
Definition SYNTHESIS_ERROR_MESSAGE : string :=
  "There was an error while generating the final answer.".

(** Python truthiness of a list. *)
Definition truthy {A} (l : list A) : bool :=
  match l with [] => false | _ => true end.

Section Agent.
Variable E : Env.
Variable top_k : Z.   (* self.top_k *)

Definition _find_relevant_articles (query : string) : M (list string) :=
  query_embedding <- embed E query ;;
  response0 <- neighbors E query_embedding top_k ;;
  ret (map nb_id response0).

(** The dict appended for a document that exists. *)
Definition context_entry (doc_id : string) (data : doc) : ContextEntry :=
  mkContextEntry doc_id
    (default (VStr NO_SUMMARY) (data !! "gemini_summary"))
    (py_str E (default (VStr NO_KEY_INFO) (data !! "vertex_ai_extraction"))).

(** The loop of [_get_article_context], with the bundle built so far. *)
Fixpoint get_article_context_loop (article_ids : list string)
    (context_bundle : list ContextEntry) : M (list ContextEntry) :=
  match article_ids with
  | [] => ret context_bundle
  | doc_id :: rest =>
      d <- firestore_get E doc_id ;;
      match d with
      | Some data =>
          get_article_context_loop rest (context_bundle ++ [context_entry doc_id data])
      | None => get_article_context_loop rest context_bundle
      end
  end.

Definition _get_article_context (article_ids : list string) : M (list ContextEntry) :=
  get_article_context_loop article_ids [].

(** The block of one source; [i] is the index given by [enumerate]. *)
Definition source_block (i : nat) (d : ContextEntry) : string :=
  "--- Start of Source " +:+ pretty (i + 1)%nat +:+ " ---" +:+ PyStr.nl
  +:+ "Source ID: " +:+ ctx_id d +:+ PyStr.nl
  +:+ "Summary: " +:+ py_str E (ctx_summary d) +:+ PyStr.nl
  +:+ "Key Information Extracted: " +:+ ctx_key_info d +:+ PyStr.nl
  +:+ "--- End of Source " +:+ pretty (i + 1)%nat +:+ " ---" +:+ PyStr.nl +:+ PyStr.nl.

Fixpoint build_context_str (i : nat) (context : list ContextEntry)
    (context_str : string) : string :=
  match context with
  | [] => context_str
  | d :: rest => build_context_str (S i) rest (context_str +:+ source_block i d)
  end.

Definition render_prompt (query : string) (context : list ContextEntry) : string :=
  Prompts.NEWS_ANALYST_PROMPT query (build_context_str 0 context "").

Definition _synthesize_news_report (query : string) (context : list ContextEntry)
    : M string :=
  let prompt := render_prompt query context in
  try_except
    (text <- generate E prompt false ;; ret text)
    (fun _ => ret SYNTHESIS_ERROR_MESSAGE).

Definition answer (query : string) : M string :=
  article_ids <- _find_relevant_articles query ;;
  if negb (truthy article_ids) then ret NO_ARTICLES_MESSAGE
  else
    context <- _get_article_context article_ids ;;
    if negb (truthy context) then ret NO_CONTENT_MESSAGE
    else
      final_answer <- _synthesize_news_report query context ;;
      ret final_answer.

End Agent.

(** ** Enrichment producers (src/nlp/summarization.py, src/nlp/information_extraction.py) *)

(** A client call that leaves no mark on the world. *)
Definition pure_call {A} (r : outcome A) : M A := fun w => (r, w).

Section Producers.
Variable E : Env.

Definition summarize_gemini (text_content : string) : M string :=
  let prompt := Prompts.GEMINI_SUMMARIZATION_PROMPT text_content in
  try_except
    (text <- generate E prompt false ;; ret (PyStr.strip text))
    (fun _ => ret "").

Definition summarize_textrank (text_content : string) (limit_sentences : Z) : M string :=
  if negb (nlp_spacy_ok E) then ret ""
  else
    try_except
      (sents <- pure_call (textrank_sentences E text_content limit_sentences) ;;
       ret (PyStr.join " " (map PyStr.strip sents)))
      (fun _ => ret "").

Definition extract_entities_nl_api (text_content : string) : M (list NlEntity) :=
  try_except
    (pure_call (analyze_entities E text_content))
    (fun _ => ret []).

(** [json.loads] raising JSONDecodeError, as an exception of the monad; the
    message, which names the position of the error, is only ever logged
    and is left empty. *)
Definition loads (s : string) : M value :=
  match json_loads E s with
  | Some v => ret v
  | None => raise (JSONDecodeError "")
  end.

(** Reading [response.text] once more, in a handler.  The call is not
    made again; when it had raised, the local [response] is unbound. *)
Definition response_text_again (prompt : string) (json_mode : bool) : M string :=
  match generate_content E prompt json_mode with
  | Ret text => ret text
  | Raise e =>
      if response_bound E prompt json_mode then raise e
      else raise (UnboundLocalError (unbound_local_message E "response"))
  end.

(** The [try] has two handlers: the one for [json.JSONDecodeError] logs
    [response.text] before it returns the empty dict, the one for any other
    [Exception] returns the empty dict. *)
Definition extract_entities_vertex_ai (text_content : string) : M value :=
  let prompt := Prompts.ENTITY_EXTRACTION_PROMPT text_content in
  r <- attempt
         (text <- generate E prompt true ;;
          let json_string := PyStr.strip text in
          let clean_json_string :=
            match re_search_fence E json_string with
            | Some group2 => group2
            | None => json_string
            end in
          loads clean_json_string) ;;
  match r with
  | Ret extraction => ret extraction
  | Raise (JSONDecodeError _) =>
      response_text_again prompt true ;; ret (VDict [])
  | Raise _ => ret (VDict [])
  end.

Definition extract_entities_spacy (text_content : string) : M (list SpacyEnt) :=
  if negb (nlp_spacy_ok E) then ret []
  else
    try_except
      (pure_call (spacy_ents E text_content))
      (fun _ => ret []).

End Producers.

(** ** Formatting helpers (src/core/helper.py) *)

Definition format_spacy_entities (spacy_ents : list SpacyEnt) : value :=
  VList (map (fun ent =>
    VDict [("text", VStr (ent_text ent)); ("label", VStr (ent_label_ ent))]) spacy_ents).

Definition format_nl_api_entities (nl_api_ents : list NlEntity) : value :=
  VList (map (fun entity =>
    VDict [("name", VStr (ent_name entity));
           ("type", VStr (ent_type_name entity));
           ("salience", VFloat (ent_salience entity));
           ("wikipedia_url",
            VStr (default "" (ent_metadata entity !! "wikipedia_url")))]) nl_api_ents).

(** ** The sampler (src/data/data_loader.py) *)

Section Loader.
Variable E : Env.

(** [full_df[text_column].str.split().str.len() < max_words], on one row. *)
Definition under_max_words (max_words : Z) (r : Row) : bool :=
  Z.of_nat (length (PyStr.split (row_document r))) <? max_words.

(** The rows left by the optional word filter. *)
Definition filter_pool (max_words : option Z) (full_df : list Row) : list Row :=
  match max_words with
  | Some mw => List.filter (under_max_words mw) full_df
  | None => full_df
  end.

Definition pool_too_small (pool : list Row) (n_samples : Z) : exn :=
  ValueError ("Filtered dataset has only " +:+ pretty (length pool)
              +:+ " rows; " +:+ pretty n_samples +:+ " requested.").

(** Whether [full_df[text_column]] finds the column.  A frame read from
    JSON lines has a column for every key of its records and no column when
    it has no record; the records here all have the three keys of [Row]. *)
Definition has_text_column (full_df : list Row) : bool := truthy full_df.

(** The [if max_words is not None] block: selecting the column comes before
    anything else and raises KeyError when the column is not there. *)
Definition word_filter (max_words : option Z) (full_df : list Row) : M (list Row) :=
  match max_words with
  | Some _ =>
      if has_text_column full_df then ret (filter_pool max_words full_df)
      else raise (KeyError "document")
  | None => ret full_df
  end.

Definition load_and_sample_data (n_samples : Z) (max_words : option Z)
    (random_state : Z) : M (list Row) :=
  try_except
    (full_df <- pure_call (read_dataset E) ;;
     full_df <- word_filter max_words full_df ;;
     if Z.of_nat (length full_df) <? n_samples
     then raise (pool_too_small full_df n_samples)
     else
       sample_df <- pure_call (df_sample E n_samples random_state full_df) ;;
       ret sample_df)
    (fun e => raise e).

End Loader.

(** ** The ingestion pipeline (src/main.py) *)

Section Pipeline.
Variable E : Env.

(** The dict handed to [firestore_doc_ref.set]. *)
Definition enriched_record (doc_id reference_summary gemini_summary textrank_summary : string)
    (vertex_ai_extraction : value) (nl_api_entities : list NlEntity)
    (spacy_entities : list SpacyEnt) : doc :=
  let source_blob_name := "xsum/train.jsonl" in
  list_to_map [
    ("gcs_uri", VStr ("gs://" +:+ gcs_bucket_name E +:+ "/" +:+ source_blob_name));
    ("document_id_in_file", VStr doc_id);
    ("reference_summary", VStr reference_summary);
    ("gemini_summary", VStr gemini_summary);
    ("textrank_summary", VStr textrank_summary);
    ("vertex_ai_extraction", vertex_ai_extraction);
    ("nl_api_entities", format_nl_api_entities nl_api_entities);
    ("spacy_entities", format_spacy_entities spacy_entities)
  ].

(** The body of the loop over the sampled rows; an early [ret tt] is the
    [continue] of the source. *)
Definition process_row (row : Row) : M unit :=
  let doc_id := py_str E (row_id row) in
  let doc_text := row_document row in
  let reference_summary := row_summary row in
  gemini_summary <- summarize_gemini E doc_text ;;
  textrank_summary <- summarize_textrank E doc_text 3 ;;
  vertex_ai_extraction <- extract_entities_vertex_ai E doc_text ;;
  nl_api_entities <- extract_entities_nl_api E doc_text ;;
  spacy_entities <- extract_entities_spacy E doc_text ;;
  r <- attempt (embed E doc_text) ;;
  match r with
  | Raise _ => ret tt
  | Ret embedding =>
      firestore_set E doc_id
        (enriched_record doc_id reference_summary gemini_summary textrank_summary
           vertex_ai_extraction nl_api_entities spacy_entities) ;;
      if index_endpoint_ok E then
        try_except (upsert_datapoints E doc_id embedding) (fun _ => ret tt)
      else ret tt
  end.

(** [run_pipeline(args)] with [args.samples = samples]. *)
Definition run_pipeline (samples : Z) : M unit :=
  r <- attempt (load_and_sample_data E samples (Some 1000) 42) ;;
  match r with
  | Raise _ => ret tt
  | Ret df_to_process => for_each process_row df_to_process
  end.

End Pipeline.

(** ** Functions used to state the properties *)

(** One entry per id found in the store [s], in the order of the ids. *)
Definition found_entries (E : Env) (s : gmap string doc) (ids : list string)
    : list ContextEntry :=
  omap (fun id => context_entry E id <$> s !! id) ids.

(** What each producer hands back for a text, as a function of the oracles. *)
Definition gemini_summary_of (E : Env) (text : string) : string :=
  match generate_content E (Prompts.GEMINI_SUMMARIZATION_PROMPT text) false with
  | Ret t => PyStr.strip t
  | Raise _ => ""
  end.

Definition textrank_summary_of (E : Env) (text : string) : string :=
  if negb (nlp_spacy_ok E) then ""
  else match textrank_sentences E text 3 with
       | Ret sents => PyStr.join " " (map PyStr.strip sents)
       | Raise _ => ""
       end.

Definition vertex_extraction_of (E : Env) (text : string) : value :=
  match generate_content E (Prompts.ENTITY_EXTRACTION_PROMPT text) true with
  | Ret t =>
      let json_string := PyStr.strip t in
      match json_loads E (default json_string (re_search_fence E json_string)) with
      | Some v => v
      | None => VDict []
      end
  | Raise _ => VDict []
  end.

(** The exception with which the extraction producer ends, if it does: its
    first handler fails when the generative call has raised JSONDecodeError. *)
Definition vertex_extraction_fault (E : Env) (text : string) : option exn :=
  match generate_content E (Prompts.ENTITY_EXTRACTION_PROMPT text) true with
  | Raise (JSONDecodeError msg) =>
      Some (if response_bound E (Prompts.ENTITY_EXTRACTION_PROMPT text) true
            then JSONDecodeError msg
            else UnboundLocalError (unbound_local_message E "response"))
  | _ => None
  end.

Definition nl_entities_of (E : Env) (text : string) : list NlEntity :=
  match analyze_entities E text with Ret ents => ents | Raise _ => [] end.

Definition spacy_entities_of (E : Env) (text : string) : list SpacyEnt :=
  if negb (nlp_spacy_ok E) then []
  else match spacy_ents E text with Ret ents => ents | Raise _ => [] end.

(** The id under which a row is stored and the record stored for it. *)
Definition doc_id_of (E : Env) (row : Row) : string := py_str E (row_id row).

Definition record_of (E : Env) (row : Row) : doc :=
  enriched_record E (doc_id_of E row) (row_summary row)
    (gemini_summary_of E (row_document row))
    (textrank_summary_of E (row_document row))
    (vertex_extraction_of E (row_document row))
    (nl_entities_of E (row_document row))
    (spacy_entities_of E (row_document row)).

(** The calls every row makes before anything is written, when its
    producers return. *)
Definition enrichment_events (row : Row) : list event :=
  [EvGenerate (Prompts.GEMINI_SUMMARIZATION_PROMPT (row_document row)) false;
   EvGenerate (Prompts.ENTITY_EXTRACTION_PROMPT (row_document row)) true;
   EvEmbed (row_document row)].

(** What a computation did to the world: the store writes and the index
    upserts that succeeded, in order, and the calls recorded. *)
Record effect : Type := Effect {
  eff_sets : list (string * doc);
  eff_upserts : list (string * embedding);
  eff_events : list event
}.

Definition write_all {V} (ws : list (string * V)) (m : gmap string V) : gmap string V :=
  fold_left (fun m kv => <[kv.1 := kv.2]> m) ws m.

Definition apply_effect (d : effect) (w : world) : world :=
  World (write_all (eff_sets d) (store w)) (write_all (eff_upserts d) (index w))
        (trace w ++ eff_events d).

Definition effect_app (d1 d2 : effect) : effect :=
  Effect (eff_sets d1 ++ eff_sets d2) (eff_upserts d1 ++ eff_upserts d2)
         (eff_events d1 ++ eff_events d2).

(** Outcome and effect of one row, of a list of rows, of the loader and of
    the whole run: none depends on the world the run starts in. *)
Definition row_effect (E : Env) (row : Row) : outcome unit * effect :=
  let id := doc_id_of E row in
  let rec := record_of E row in
  let evs := enrichment_events row in
  match vertex_extraction_fault E (row_document row) with
  | Some e =>
      (Raise e,
       Effect [] []
         [EvGenerate (Prompts.GEMINI_SUMMARIZATION_PROMPT (row_document row)) false;
          EvGenerate (Prompts.ENTITY_EXTRACTION_PROMPT (row_document row)) true])
  | None =>
      match get_embeddings E (row_document row) with
      | Raise _ => (Ret tt, Effect [] [] evs)
      | Ret v =>
          match firestore_set_fault E id with
          | Some e => (Raise e, Effect [] [] (evs ++ [EvDocSet id rec]))
          | None =>
              if index_endpoint_ok E then
                match upsert_fault E id v with
                | Some _ =>
                    (Ret tt, Effect [(id, rec)] [] (evs ++ [EvDocSet id rec; EvUpsert id v]))
                | None =>
                    (Ret tt,
                     Effect [(id, rec)] [(id, v)] (evs ++ [EvDocSet id rec; EvUpsert id v]))
                end
              else (Ret tt, Effect [(id, rec)] [] (evs ++ [EvDocSet id rec]))
          end
      end
  end.

Fixpoint rows_effect (E : Env) (rows : list Row) : outcome unit * effect :=
  match rows with
  | [] => (Ret tt, Effect [] [] [])
  | row :: rest =>
      match row_effect E row with
      | (Ret _, d) => let '(r, d') := rows_effect E rest in (r, effect_app d d')
      | (Raise e, d) => (Raise e, d)
      end
  end.

Definition load_result (E : Env) (n_samples : Z) (max_words : option Z)
    (random_state : Z) : outcome (list Row) :=
  match read_dataset E with
  | Raise e => Raise e
  | Ret full_df =>
      if bool_decide (is_Some max_words) && negb (has_text_column full_df)
      then Raise (KeyError "document")
      else
        let pool := filter_pool max_words full_df in
        if Z.of_nat (length pool) <? n_samples
        then Raise (pool_too_small pool n_samples)
        else df_sample E n_samples random_state pool
  end.

Definition pipeline_effect (E : Env) (samples : Z) : outcome unit * effect :=
  match load_result E samples (Some 1000) 42 with
  | Raise _ => (Ret tt, Effect [] [] [])
  | Ret rows => rows_effect E rows
  end.

(** ** Concrete environments and worlds used to exercise the code *)

Module Demo.

(** An environment whose services all answer; the four arguments are the
    oracles the examples vary. *)
Definition env (emb : string -> outcome embedding) (nbs : outcome (list Neighbor))
    (gen : string -> bool -> outcome string) (dataset : list Row) : Env :=
  {| get_embeddings := emb;
     find_neighbors := fun _ _ _ => nbs;
     generate_content := gen;
     response_bound := fun _ _ => false;
     unbound_local_message := fun name =>
       "cannot access local variable '" +:+ name
       +:+ "' where it is not associated with a value";
     firestore_get_fault := fun _ => None;
     firestore_set_fault := fun _ => None;
     upsert_fault := fun _ _ => None;
     index_endpoint_ok := true;
     nlp_spacy_ok := true;
     textrank_sentences := fun _ _ => Ret [" First sentence. "; "Second one."];
     spacy_ents := fun _ => Ret [mkSpacyEnt "City X" "GPE"];
     analyze_entities := fun _ => Raise (ServiceError "NL API quota exceeded");
     re_search_fence := fun _ => None;
     json_loads := fun _ => Some (VDict [("main_event_or_topic", VStr "budget vote")]);
     py_repr := fun _ => "{...}";
     read_dataset := Ret dataset;
     df_sample := fun n _ rows => Ret (take (Z.to_nat n) rows);
     gcs_bucket_name := "news-bucket" |}.

Definition vec : embedding := [1 # 2; 3 # 4]%Q.
Definition emb_ok : string -> outcome embedding := fun _ => Ret vec.
Definition emb_down : string -> outcome embedding :=
  fun _ => Raise (ServiceError "embedding model unavailable").
Definition gen_ok : string -> bool -> outcome string :=
  fun _ _ => Ret "The council approved the budget [a1].".
Definition gen_padded : string -> bool -> outcome string :=
  fun _ _ => Ret ("  The council approved the budget [a1]. " +:+ PyStr.nl).
Definition gen_down : string -> bool -> outcome string :=
  fun _ _ => Raise (ServiceError "Gemini API error").

Definition two_neighbors : list Neighbor :=
  [mkNeighbor "a1" (1 # 10)%Q; mkNeighbor "a2" (2 # 10)%Q].
Definition three_neighbors : list Neighbor :=
  [mkNeighbor "A" (1 # 10)%Q; mkNeighbor "B" (2 # 10)%Q; mkNeighbor "C" (3 # 10)%Q].

Definition empty_world : world := World ∅ ∅ [].

(** A full record, and one written by an older run that has neither a
    summary nor an extraction. *)
Definition full_doc : doc :=
  list_to_map [("gemini_summary", VStr "The council approved the budget.");
               ("vertex_ai_extraction", VDict [("key_people", VList [VStr "Mayor"])])].
Definition bare_doc : doc :=
  list_to_map [("reference_summary", VStr "Budget vote.")].

(** A store holding A and C but not B. *)
Definition drifted_world : world :=
  World (<["A" := full_doc]> (<["C" := bare_doc]> ∅)) ∅ [].

Definition stocked_world : world :=
  World (<["a1" := full_doc]> ∅) ∅ [].

Definition query : string := "What happened in City X?".

Definition one_entry : list ContextEntry :=
  [mkContextEntry "a1" (VStr "The council approved the budget.") "{...}"].

(** A data set of 1000 rows: 999 short articles and one of 1000 words,
    which the filter on fewer than 1000 words leaves out. *)
Definition short_row (i : nat) : Row :=
  mkRow (VStr (pretty i)) "Council approves the new budget." "Budget approved.".
Definition long_row : Row :=
  mkRow (VStr "long") (PyStr.join " " (replicate 1000 "word")) "Long read.".
Definition dataset : list Row := map short_row (seq 0 999) ++ [long_row].

Definition two_rows : list Row := [short_row 1; short_row 2].

End Demo.

(** ** The interactive loop (src/agent.py, main) *)

Module PyText.

(** [str.lower] on one character, for code points below 256: the letters
    A .. Z and the Latin-1 capitals 192 .. 222, the multiplication sign 215
    apart. *)
Definition lower_char (c : ascii) : ascii :=
  let n := nat_of_ascii c in
  if ((65 <=? n)%nat && (n <=? 90)%nat)
     || ((192 <=? n)%nat && (n <=? 222)%nat && negb (n =? 215)%nat)
  then ascii_of_nat (n + 32) else c.

Fixpoint lower (s : string) : string :=
  match s with
  | EmptyString => EmptyString
  | String c s' => String (lower_char c) (lower s')
  end.

(** Truthiness of a str: the empty string is false. *)
Definition nonempty (s : string) : bool :=
  match s with EmptyString => false | _ => true end.

Definition last_char (s : string) : option ascii :=
  last (list_ascii_of_string s).

End PyText.

(** [str(e)]: the message the exception was raised with; for a KeyError
    the [repr] of the key. *)
Definition exn_str (e : exn) : string :=
  match e with
  | ValueError msg => msg
  | ServiceError msg => msg
  | JSONDecodeError msg => msg
  | UnboundLocalError msg => msg
  | KeyError key => "'" +:+ key +:+ "'"
  | EOFError msg => msg
  end.

Definition is_quit (query : string) : bool :=
  bool_decide (PyText.lower query ∈ ["quit"; "exit"]).

(** What one call of [input()] gives: a line typed, or Ctrl-C at the prompt
    (KeyboardInterrupt raised by [input]).  When the list is used up the
    input is at its end and [input()] raises EOFError.  A Ctrl-C that
    arrives while [agent.answer] runs is a signal at no fixed point of the
    run and is outside this model. *)
Inductive console : Type :=
| Typed (line : string)
| CtrlC.

Definition THINKING : string := PyStr.nl +:+ "Agent: Thinking...".
Definition GOODBYE : string := "Agent: Goodbye!".
Definition GOODBYE_AFTER_BREAK : string := PyStr.nl +:+ "Agent: Goodbye!".
Definition answer_line (final_answer : string) : string :=
  PyStr.nl +:+ "Agent:" +:+ PyStr.nl +:+ final_answer +:+ PyStr.nl.
Definition error_line (e : exn) : string :=
  "An unexpected error occurred: " +:+ exn_str e.

Section Console.
Variable E : Env.

(** The [while True] loop of [main].  [out] is what has been printed so
    far, one string per [print].  The handler for KeyboardInterrupt and
    EOFError covers the whole body, the call of [agent.answer] included; the
    handler for any other [Exception] prints the error and the loop goes on. *)
Fixpoint main_loop (inputs : list console) (out : list string) : M (list string) :=
  match inputs with
  | [] => ret (out ++ [GOODBYE_AFTER_BREAK])
  | CtrlC :: _ => ret (out ++ [GOODBYE_AFTER_BREAK])
  | Typed query :: rest =>
      if negb (PyText.nonempty (PyStr.strip query)) then main_loop rest out
      else if is_quit query then ret (out ++ [GOODBYE])
      else
        r <- attempt (answer E 10 query) ;;
        match r with
        | Ret final_answer =>
            main_loop rest (out ++ [THINKING; answer_line final_answer])
        | Raise (EOFError _) => ret (out ++ [THINKING; GOODBYE_AFTER_BREAK])
        | Raise e => main_loop rest (out ++ [THINKING; error_line e])
        end
  end.

Definition banner : list string :=
  [PyStr.nl +:+ "--- News Analyst Agent ---";
   "Ask me anything about the news articles in the database.";
   "Type 'quit' or 'exit' to end the conversation.";
   "--------------------------"].

(** [main()] of src/agent.py, the agent built with [top_k=10]. *)
Definition agent_main (inputs : list console) : M (list string) :=
  main_loop inputs banner.

End Console.

(** The lines the input offers to the agent: the typed lines before the
    first quit, exit or Ctrl-C that are not blank. *)
Fixpoint queries_of (inputs : list console) : list string :=
  match inputs with
  | [] => []
  | CtrlC :: _ => []
  | Typed query :: rest =>
      if negb (PyText.nonempty (PyStr.strip query)) then queries_of rest
      else if is_quit query then []
      else query :: queries_of rest
  end.

(** Whether the input stops at a quit or exit (rather than at Ctrl-C or at
    its end). *)
Fixpoint ends_with_quit (inputs : list console) : bool :=
  match inputs with
  | [] => false
  | CtrlC :: _ => false
  | Typed query :: rest =>
      if negb (PyText.nonempty (PyStr.strip query)) then ends_with_quit rest
      else if is_quit query then true
      else ends_with_quit rest
  end.

(** A list of queries put to the agent one after the other, each in the
    world the one before left: the lines printed, the queries put, whether
    an EOFError of the agent cut the list short, and the world left. *)
Record Session : Type := mkSession {
  s_lines : list string;
  s_sent : list string;
  s_eof : bool;
  s_world : world
}.

Fixpoint session (E : Env) (queries : list string) (w : world) : Session :=
  match queries with
  | [] => mkSession [] [] false w
  | query :: rest =>
      match answer E 10 query w with
      | (Ret final_answer, w1) =>
          let S := session E rest w1 in
          mkSession (THINKING :: answer_line final_answer :: s_lines S)
                    (query :: s_sent S) (s_eof S) (s_world S)
      | (Raise (EOFError _), w1) => mkSession [THINKING] [query] true w1
      | (Raise e, w1) =>
          let S := session E rest w1 in
          mkSession (THINKING :: error_line e :: s_lines S)
                    (query :: s_sent S) (s_eof S) (s_world S)
      end
  end.

(** The last line printed. *)
Definition farewell (eof : bool) (inputs : list console) : string :=
  if eof then GOODBYE_AFTER_BREAK
  else if ends_with_quit inputs then GOODBYE else GOODBYE_AFTER_BREAK.

Definition is_embed (e : event) : bool :=
  match e with EvEmbed _ => true | _ => false end.

(** Rows whose embedding call returns. *)
Definition embeds (E : Env) (row : Row) : bool :=
  match get_embeddings E (row_document row) with Ret _ => true | Raise _ => false end.

(** ** Environments with failing services *)

Module Faults.

Definition with_get_fault (f : string -> option exn) (E : Env) : Env :=
  {| get_embeddings := get_embeddings E;
     find_neighbors := find_neighbors E;
     generate_content := generate_content E;
     response_bound := response_bound E;
     unbound_local_message := unbound_local_message E;
     firestore_get_fault := f;
     firestore_set_fault := firestore_set_fault E;
     upsert_fault := upsert_fault E;
     index_endpoint_ok := index_endpoint_ok E;
     nlp_spacy_ok := nlp_spacy_ok E;
     textrank_sentences := textrank_sentences E;
     spacy_ents := spacy_ents E;
     analyze_entities := analyze_entities E;
     re_search_fence := re_search_fence E;
     json_loads := json_loads E;
     py_repr := py_repr E;
     read_dataset := read_dataset E;
     df_sample := df_sample E;
     gcs_bucket_name := gcs_bucket_name E |}.

Definition with_set_fault (f : string -> option exn) (E : Env) : Env :=
  {| get_embeddings := get_embeddings E;
     find_neighbors := find_neighbors E;
     generate_content := generate_content E;
     response_bound := response_bound E;
     unbound_local_message := unbound_local_message E;
     firestore_get_fault := firestore_get_fault E;
     firestore_set_fault := f;
     upsert_fault := upsert_fault E;
     index_endpoint_ok := index_endpoint_ok E;
     nlp_spacy_ok := nlp_spacy_ok E;
     textrank_sentences := textrank_sentences E;
     spacy_ents := spacy_ents E;
     analyze_entities := analyze_entities E;
     re_search_fence := re_search_fence E;
     json_loads := json_loads E;
     py_repr := py_repr E;
     read_dataset := read_dataset E;
     df_sample := df_sample E;
     gcs_bucket_name := gcs_bucket_name E |}.

(** The vector index: whether the endpoint handle is set, and whether an
    upsert raises. *)
Definition with_index (endpoint_ok : bool) (f : string -> embedding -> option exn)
    (E : Env) : Env :=
  {| get_embeddings := get_embeddings E;
     find_neighbors := find_neighbors E;
     generate_content := generate_content E;
     response_bound := response_bound E;
     unbound_local_message := unbound_local_message E;
     firestore_get_fault := firestore_get_fault E;
     firestore_set_fault := firestore_set_fault E;
     upsert_fault := f;
     index_endpoint_ok := endpoint_ok;
     nlp_spacy_ok := nlp_spacy_ok E;
     textrank_sentences := textrank_sentences E;
     spacy_ents := spacy_ents E;
     analyze_entities := analyze_entities E;
     re_search_fence := re_search_fence E;
     json_loads := json_loads E;
     py_repr := py_repr E;
     read_dataset := read_dataset E;
     df_sample := df_sample E;
     gcs_bucket_name := gcs_bucket_name E |}.

(** The data set cannot be read (download or parse error). *)
Definition with_dataset (r : outcome (list Row)) (E : Env) : Env :=
  {| get_embeddings := get_embeddings E;
     find_neighbors := find_neighbors E;
     generate_content := generate_content E;
     response_bound := response_bound E;
     unbound_local_message := unbound_local_message E;
     firestore_get_fault := firestore_get_fault E;
     firestore_set_fault := firestore_set_fault E;
     upsert_fault := upsert_fault E;
     index_endpoint_ok := index_endpoint_ok E;
     nlp_spacy_ok := nlp_spacy_ok E;
     textrank_sentences := textrank_sentences E;
     spacy_ents := spacy_ents E;
     analyze_entities := analyze_entities E;
     re_search_fence := re_search_fence E;
     json_loads := json_loads E;
     py_repr := py_repr E;
     read_dataset := r;
     df_sample := df_sample E;
     gcs_bucket_name := gcs_bucket_name E |}.

Definition firestore_down : string -> option exn :=
  fun _ => Some (ServiceError "Firestore unavailable").
Definition upsert_down : string -> embedding -> option exn :=
  fun _ _ => Some (ServiceError "Vector Search unavailable").

End Faults.

(** * Properties *)

(** ** Counting calls in traces *)

Lemma calls_app (p : event -> bool) (t u : list event) :
  calls p (t ++ u) = (calls p t + calls p u)%nat.
Proof. unfold calls. by rewrite List.filter_app, length_app. Qed.

Lemma calls_none (p : event -> bool) (t : list event) :
  (forall e, e ∈ t -> p e = false) -> calls p t = 0%nat.
Proof.
  unfold calls. induction t as [|e t IH]; intros H; simpl; [done|].
  rewrite (H e) by left. apply IH. intros e' He'. apply H. by right.
Qed.

Lemma calls_map_doc_get (p : event -> bool) (ids : list string) :
  (forall id, p (EvDocGet id) = false) -> calls p (map EvDocGet ids) = 0%nat.
Proof.
  intros H. apply calls_none. intros e He.
  apply list_elem_of_fmap in He as (id & -> & _). apply H.
Qed.

(** Case analysis on membership in a list written out. *)
Ltac each_elem H :=
  repeat (apply elem_of_cons in H as [->|H]); try (by apply elem_of_nil in H).

(** ** The three tools of the agent, step by step *)

Section AgentFacts.
Variable E : Env.
Variable top_k : Z.

(** The retriever makes one embedding call and, if that returns, one
    neighbour lookup; it touches neither store nor index. *)
Lemma find_relevant_articles_unfold (query : string) (w : world) :
  _find_relevant_articles E top_k query w =
  match get_embeddings E query with
  | Raise e => (Raise e, log (EvEmbed query) w)
  | Ret v =>
      let w1 := log (EvFindNeighbors v top_k) (log (EvEmbed query) w) in
      match find_neighbors E (index w) v top_k with
      | Raise e => (Raise e, w1)
      | Ret nbs => (Ret (map nb_id nbs), w1)
      end
  end.
Proof.
  unfold _find_relevant_articles, bind, embed, neighbors, call, ret.
  destruct (get_embeddings E query) as [v|e]; [|done]. simpl.
  by destruct (find_neighbors E (index w) v top_k).
Qed.

Lemma find_relevant_articles_world (query : string) (w w1 : world)
    (r : outcome (list string)) :
  _find_relevant_articles E top_k query w = (r, w1) ->
  store w1 = store w /\ index w1 = index w /\
  exists evs, trace w1 = trace w ++ evs /\
    forall e, e ∈ evs -> is_doc_get e = false /\ is_generate e = false /\ is_write e = false.
Proof.
  rewrite find_relevant_articles_unfold.
  destruct (get_embeddings E query) as [v|e].
  - simpl. intros H.
    assert (w1 = log (EvFindNeighbors v top_k) (log (EvEmbed query) w)) as ->
      by (destruct (find_neighbors E (index w) v top_k); congruence).
    simpl. repeat split.
    exists [EvEmbed query; EvFindNeighbors v top_k]. split.
    + by rewrite <- app_assoc.
    + intros e He. by each_elem He.
  - intros [= <- <-]. simpl. repeat split.
    exists [EvEmbed query]. split; [done|].
    intros ev He. by each_elem He.
Qed.

(** When no lookup raises, the assembler returns [found_entries] after one
    lookup per id. *)
Lemma get_article_context_loop_ok (ids : list string) :
  forall (acc : list ContextEntry) (w : world),
  (forall id, id ∈ ids -> firestore_get_fault E id = None) ->
  get_article_context_loop E ids acc w =
  (Ret (acc ++ found_entries E (store w) ids),
   World (store w) (index w) (trace w ++ map EvDocGet ids)).
Proof.
  induction ids as [|id ids IH]; intros acc w H; simpl.
  - unfold ret, found_entries. simpl. rewrite !app_nil_r. by destruct w.
  - unfold bind, firestore_get. rewrite (H id) by left.
    assert (forall i, i ∈ ids -> firestore_get_fault E i = None) as H'
      by (intros i Hi; apply H; by right).
    unfold found_entries. simpl.
    destruct (store w !! id) as [data|] eqn:Hl; simpl;
      rewrite (IH _ _ H'); simpl; rewrite <- !app_assoc; done.
Qed.

Lemma get_article_context_ok (ids : list string) (w : world) :
  (forall id, id ∈ ids -> firestore_get_fault E id = None) ->
  _get_article_context E ids w =
  (Ret (found_entries E (store w) ids),
   World (store w) (index w) (trace w ++ map EvDocGet ids)).
Proof. intros H. unfold _get_article_context. by rewrite get_article_context_loop_ok. Qed.

(** The synthesizer makes one generative call and never raises. *)
Lemma synthesize_unfold (query : string) (context : list ContextEntry) (w : world) :
  _synthesize_news_report E query context w =
  (Ret match generate_content E (render_prompt E query context) false with
       | Ret text => text
       | Raise _ => SYNTHESIS_ERROR_MESSAGE
       end,
   log (EvGenerate (render_prompt E query context) false) w).
Proof.
  unfold _synthesize_news_report, try_except, attempt, bind, generate, call, ret.
  by destruct (generate_content E (render_prompt E query context) false).
Qed.

End AgentFacts.

(** ** The agent's early exits and its synthesizer *)

(** C1. When the retriever returns no article id, [answer] returns the
    no-relevant-articles message and stops there: the world it leaves is the
    one the retriever left, so it makes no document-store lookup and no
    generative-model call. *)
Theorem answer_no_relevant_articles (E : Env) (top_k : Z) (query : string)
    (w w1 : world) :
  _find_relevant_articles E top_k query w = (Ret [], w1) ->
  answer E top_k query w =
    (Ret "I'm sorry, I could not find any relevant news articles for your query.", w1)
  /\ calls is_doc_get (trace w1) = calls is_doc_get (trace w)
  /\ calls is_generate (trace w1) = calls is_generate (trace w).
Proof.
  intros Hr. split.
  - unfold answer, bind. by rewrite Hr.
  - apply find_relevant_articles_world in Hr as (_ & _ & evs & -> & Hevs).
    rewrite !calls_app.
    rewrite (calls_none is_doc_get evs) by (intros e He; by apply Hevs).
    rewrite (calls_none is_generate evs) by (intros e He; by apply Hevs).
    lia.
Qed.

Lemma answer_no_relevant_articles_witness :
  answer (Demo.env Demo.emb_ok (Ret []) Demo.gen_ok []) 10 Demo.query Demo.empty_world =
    (Ret "I'm sorry, I could not find any relevant news articles for your query.",
     World ∅ ∅ [EvEmbed Demo.query; EvFindNeighbors Demo.vec 10])
  /\ calls is_doc_get [EvEmbed Demo.query; EvFindNeighbors Demo.vec 10] = 0%nat
  /\ calls is_generate [EvEmbed Demo.query; EvFindNeighbors Demo.vec 10] = 0%nat.
Proof.
  exact (answer_no_relevant_articles
           (Demo.env Demo.emb_ok (Ret []) Demo.gen_ok []) 10 Demo.query
           Demo.empty_world
           (World ∅ ∅ [EvEmbed Demo.query; EvFindNeighbors Demo.vec 10])
           eq_refl).
Defined.

(** C2. When the retriever returns ids and none of them is in the document
    store, [answer] returns the could-not-retrieve-content message and the
    generative model is not called. *)
Theorem answer_no_content (E : Env) (top_k : Z) (query : string)
    (w w1 : world) (ids : list string) :
  _find_relevant_articles E top_k query w = (Ret ids, w1) ->
  ids <> [] ->
  (forall id, id ∈ ids -> store w !! id = None) ->
  (forall id, id ∈ ids -> firestore_get_fault E id = None) ->
  exists w2,
    answer E top_k query w =
      (Ret "I found some article references, but I was unable to retrieve their content from the database.", w2)
    /\ calls is_generate (trace w2) = calls is_generate (trace w).
Proof.
  intros Hr Hne Habsent Hok.
  exists (World (store w1) (index w1) (trace w1 ++ map EvDocGet ids)).
  pose proof (find_relevant_articles_world _ _ _ _ _ _ Hr) as (Hs & _ & evs & Ht & Hevs).
  assert (found_entries E (store w1) ids = []) as Hnone.
  { rewrite Hs. unfold found_entries. clear Hr Hne Hok.
    induction ids as [|id ids IH]; [done|]. simpl.
    rewrite (Habsent id) by left. simpl. apply IH.
    intros i Hi. apply Habsent. by right. }
  split.
  - unfold answer, bind. rewrite Hr.
    destruct ids as [|id ids]; [done|]. cbn [truthy negb].
    rewrite (get_article_context_ok E _ _ Hok), Hnone. done.
  - cbn [trace]. rewrite Ht, !calls_app.
    rewrite (calls_none is_generate evs) by (intros e He; by apply Hevs).
    rewrite calls_map_doc_get by done. lia.
Qed.

Lemma answer_no_content_witness :
  exists w2,
    answer (Demo.env Demo.emb_ok (Ret Demo.two_neighbors) Demo.gen_ok []) 10
      Demo.query Demo.empty_world =
      (Ret "I found some article references, but I was unable to retrieve their content from the database.", w2)
    /\ calls is_generate (trace w2) = calls is_generate (trace Demo.empty_world).
Proof.
  apply (answer_no_content
           (Demo.env Demo.emb_ok (Ret Demo.two_neighbors) Demo.gen_ok []) 10
           Demo.query Demo.empty_world
           (World ∅ ∅ [EvEmbed Demo.query; EvFindNeighbors Demo.vec 10])
           ["a1"; "a2"]).
  - reflexivity.
  - discriminate.
  - intros id _. apply lookup_empty.
  - intros id _. reflexivity.
Defined.

Lemma found_entries_length (E : Env) (s : gmap string doc) (ids : list string) :
  (length (found_entries E s ids) <= length ids)%nat.
Proof.
  unfold found_entries. induction ids as [|id ids IH]; simpl; [lia|].
  destruct (s !! id); simpl; [apply le_n_S | apply le_S]; exact IH.
Qed.

(** C3. The context assembler returns exactly the entries of the ids that are
    in the store, in the order of the input, and drops the others: the ids of
    the entries are the input ids filtered by presence, the output is no
    longer than the input, and for the input A, B, C with only A and C stored
    the output is the entry of A followed by the entry of C. *)
Theorem get_article_context_keeps_order (E : Env) (ids : list string) (w : world) :
  (forall id, id ∈ ids -> firestore_get_fault E id = None) ->
  exists context w',
    _get_article_context E ids w = (Ret context, w')
    /\ context = found_entries E (store w) ids
    /\ map ctx_id context = filter (fun id => is_Some (store w !! id)) ids
    /\ (length context <= length ids)%nat
    /\ (forall A B C dA dC, ids = [A; B; C] ->
          store w !! A = Some dA -> store w !! B = None -> store w !! C = Some dC ->
          context = [context_entry E A dA; context_entry E C dC]).
Proof.
  intros Hok. eexists _, _. split; [by apply get_article_context_ok|].
  split; [done|]. split; [|split].
  - unfold found_entries. clear Hok.
    induction ids as [|id ids IH]; [done|]. simpl.
    destruct (store w !! id) as [d|] eqn:Hl; simpl.
    + rewrite filter_cons_True by (rewrite Hl; by eexists). f_equal. exact IH.
    + rewrite filter_cons_False by (rewrite Hl; by intros [? ?]). exact IH.
  - apply found_entries_length.
  - intros A B C dA dC -> HA HB HC. unfold found_entries. simpl.
    by rewrite HA, HB, HC.
Qed.

Lemma get_article_context_keeps_order_witness :
  exists context w',
    _get_article_context (Demo.env Demo.emb_ok (Ret Demo.three_neighbors) Demo.gen_ok [])
      ["A"; "B"; "C"] Demo.drifted_world = (Ret context, w')
    /\ context = found_entries (Demo.env Demo.emb_ok (Ret Demo.three_neighbors) Demo.gen_ok [])
                   (store Demo.drifted_world) ["A"; "B"; "C"]
    /\ map ctx_id context =
       filter (fun id => is_Some (store Demo.drifted_world !! id)) ["A"; "B"; "C"]
    /\ (length context <= 3)%nat
    /\ (forall A B C dA dC, ["A"; "B"; "C"] = [A; B; C] ->
          store Demo.drifted_world !! A = Some dA ->
          store Demo.drifted_world !! B = None ->
          store Demo.drifted_world !! C = Some dC ->
          context = [context_entry (Demo.env Demo.emb_ok (Ret Demo.three_neighbors) Demo.gen_ok []) A dA;
                     context_entry (Demo.env Demo.emb_ok (Ret Demo.three_neighbors) Demo.gen_ok []) C dC]).
Proof.
  apply (get_article_context_keeps_order
           (Demo.env Demo.emb_ok (Ret Demo.three_neighbors) Demo.gen_ok [])
           ["A"; "B"; "C"] Demo.drifted_world).
  intros id _. reflexivity.
Defined.

(** The run of the example of C3, evaluated: A and C come back in that
    order, B is dropped, and the record without summary and extraction gets
    the two default texts. *)
Example get_article_context_A_B_C :
  fst (_get_article_context (Demo.env Demo.emb_ok (Ret Demo.three_neighbors) Demo.gen_ok [])
         ["A"; "B"; "C"] Demo.drifted_world) =
  Ret [mkContextEntry "A" (VStr "The council approved the budget.") "{...}";
       mkContextEntry "C" (VStr "No summary available.") "No key information extracted."].
Proof. vm_compute. reflexivity. Qed.

(** C4. When the generative-model call raises, the synthesizer returns the
    fixed fallback text as a normal result; no exception reaches its caller.
    This holds for every context, empty or not. *)
Theorem synthesize_fallback (E : Env) (query : string) (context : list ContextEntry)
    (w : world) (e : exn) :
  generate_content E (render_prompt E query context) false = Raise e ->
  exists w',
    _synthesize_news_report E query context w =
      (Ret "There was an error while generating the final answer.", w').
Proof.
  intros Hgen. eexists. rewrite synthesize_unfold, Hgen. reflexivity.
Qed.

Lemma synthesize_fallback_witness :
  exists w',
    _synthesize_news_report (Demo.env Demo.emb_ok (Ret Demo.two_neighbors) Demo.gen_down [])
      Demo.query Demo.one_entry Demo.empty_world =
      (Ret "There was an error while generating the final answer.", w').
Proof.
  exact (synthesize_fallback
           (Demo.env Demo.emb_ok (Ret Demo.two_neighbors) Demo.gen_down [])
           Demo.query Demo.one_entry Demo.empty_world
           (ServiceError "Gemini API error") eq_refl).
Defined.




(** C6, as the code has it. When the generative call returns a text, the
    synthesizer makes exactly one generative call, with the rendered prompt,
    and returns that text unchanged: nothing is trimmed. *)
Theorem synthesize_returns_text_verbatim (E : Env) (query : string)
    (context : list ContextEntry) (w : world) (text : string) :
  generate_content E (render_prompt E query context) false = Ret text ->
  exists w',
    _synthesize_news_report E query context w = (Ret text, w')
    /\ trace w' = trace w ++ [EvGenerate (render_prompt E query context) false]
    /\ calls is_generate (trace w') = S (calls is_generate (trace w)).
Proof.
  intros Hgen. eexists. rewrite synthesize_unfold, Hgen. split; [reflexivity|].
  split; [reflexivity|]. cbn [trace log]. rewrite calls_app. cbn. lia.
Qed.

Lemma synthesize_returns_text_verbatim_witness :
  exists w',
    _synthesize_news_report (Demo.env Demo.emb_ok (Ret Demo.two_neighbors) Demo.gen_padded [])
      Demo.query Demo.one_entry Demo.empty_world =
      (Ret ("  The council approved the budget [a1]. " +:+ PyStr.nl), w')
    /\ trace w' =
       trace Demo.empty_world ++
       [EvGenerate (render_prompt (Demo.env Demo.emb_ok (Ret Demo.two_neighbors) Demo.gen_padded [])
                      Demo.query Demo.one_entry) false]
    /\ calls is_generate (trace w') = S (calls is_generate (trace Demo.empty_world)).
Proof.
  exact (synthesize_returns_text_verbatim
           (Demo.env Demo.emb_ok (Ret Demo.two_neighbors) Demo.gen_padded [])
           Demo.query Demo.one_entry Demo.empty_world
           ("  The council approved the budget [a1]. " +:+ PyStr.nl) eq_refl).
Defined.

(** C6 as stated fails: the model's text has blanks around it, the
    synthesizer returns them, and the trimmed text is another string. *)
Lemma synthesize_does_not_trim :
  let E := Demo.env Demo.emb_ok (Ret Demo.two_neighbors) Demo.gen_padded [] in
  let text := "  The council approved the budget [a1]. " +:+ PyStr.nl in
  generate_content E (render_prompt E Demo.query Demo.one_entry) false = Ret text
  /\ fst (_synthesize_news_report E Demo.query Demo.one_entry Demo.empty_world) = Ret text
  /\ PyStr.strip text = "The council approved the budget [a1]."
  /\ fst (_synthesize_news_report E Demo.query Demo.one_entry Demo.empty_world)
     <> Ret (PyStr.strip text).
Proof.
  cbv zeta. split; [reflexivity|]. split; [reflexivity|]. split; [reflexivity|].
  vm_compute. discriminate.
Qed.

(** C10. A stored record without a gemini_summary field still gives a
    context entry, whose summary is the default text; a record without a
    vertex_ai_extraction field gives an entry whose key_info is the other
    default text. *)
Theorem context_entry_defaults (E : Env) (ids : list string) (w : world)
    (id : string) (data : doc) :
  (forall i, i ∈ ids -> firestore_get_fault E i = None) ->
  id ∈ ids ->
  store w !! id = Some data ->
  exists context w',
    _get_article_context E ids w = (Ret context, w')
    /\ (data !! "gemini_summary" = None ->
        exists entry, entry ∈ context /\ ctx_id entry = id
          /\ ctx_summary entry = VStr "No summary available.")
    /\ (data !! "vertex_ai_extraction" = None ->
        exists entry, entry ∈ context /\ ctx_id entry = id
          /\ ctx_key_info entry = "No key information extracted.").
Proof.
  intros Hok Hin Hdata. eexists _, _. split; [by apply get_article_context_ok|].
  assert (context_entry E id data ∈ found_entries E (store w) ids) as Hentry.
  { unfold found_entries. apply list_elem_of_omap. exists id. split; [done|].
    by rewrite Hdata. }
  split; intros Hmiss; exists (context_entry E id data);
    (split; [exact Hentry|]); (split; [reflexivity|]);
    unfold context_entry; simpl; by rewrite Hmiss.
Qed.

Lemma context_entry_defaults_witness :
  exists context w',
    _get_article_context (Demo.env Demo.emb_ok (Ret Demo.three_neighbors) Demo.gen_ok [])
      ["A"; "B"; "C"] Demo.drifted_world = (Ret context, w')
    /\ (Demo.bare_doc !! "gemini_summary" = None ->
        exists entry, entry ∈ context /\ ctx_id entry = "C"
          /\ ctx_summary entry = VStr "No summary available.")
    /\ (Demo.bare_doc !! "vertex_ai_extraction" = None ->
        exists entry, entry ∈ context /\ ctx_id entry = "C"
          /\ ctx_key_info entry = "No key information extracted.").
Proof.
  apply (context_entry_defaults
           (Demo.env Demo.emb_ok (Ret Demo.three_neighbors) Demo.gen_ok [])
           ["A"; "B"; "C"] Demo.drifted_world "C" Demo.bare_doc).
  - intros i _. reflexivity.
  - set_solver.
  - reflexivity.
Defined.

(** ** The ingestion run as an effect on the world *)

Lemma bind_run {A B} (m : M A) (k : A -> M B) (w w' : world) (a : A) :
  m w = (Ret a, w') -> bind m k w = k a w'.
Proof. intros H. unfold bind. by rewrite H. Qed.

Section ProducerFacts.
Variable E : Env.

(** Each producer returns a value whatever its service does. *)
Lemma summarize_gemini_run (text : string) (w : world) :
  summarize_gemini E text w =
  (Ret (gemini_summary_of E text),
   log (EvGenerate (Prompts.GEMINI_SUMMARIZATION_PROMPT text) false) w).
Proof.
  unfold summarize_gemini, gemini_summary_of, try_except, attempt, bind, generate, call, ret.
  by destruct (generate_content E _ false).
Qed.

Lemma summarize_textrank_run (text : string) (w : world) :
  summarize_textrank E text 3 w = (Ret (textrank_summary_of E text), w).
Proof.
  unfold summarize_textrank, textrank_summary_of, try_except, attempt, bind, pure_call, ret.
  destruct (nlp_spacy_ok E); simpl; [|done].
  by destruct (textrank_sentences E text 3).
Qed.

Lemma extract_entities_vertex_ai_run (text : string) (w : world) :
  extract_entities_vertex_ai E text w =
  (match vertex_extraction_fault E text with
   | Some e => Raise e
   | None => Ret (vertex_extraction_of E text)
   end,
   log (EvGenerate (Prompts.ENTITY_EXTRACTION_PROMPT text) true) w).
Proof.
  unfold extract_entities_vertex_ai, vertex_extraction_of, vertex_extraction_fault,
    response_text_again, attempt, bind, generate, call, loads, ret, raise.
  destruct (generate_content E _ true) as [t|e] eqn:Hgen; cbn beta iota zeta.
  - destruct (re_search_fence E (PyStr.strip t)) as [g|]; cbn [default];
      destruct (json_loads E _); cbn beta iota zeta; rewrite ?Hgen; done.
  - destruct e; cbn beta iota zeta; rewrite ?Hgen; try done.
    by destruct (response_bound E _ true).
Qed.

(** When the extraction producer returns, it returns this for every world. *)
Lemma extract_entities_vertex_ai_returns (text : string) (w : world) (x : value) :
  fst (extract_entities_vertex_ai E text w) = Ret x ->
  vertex_extraction_fault E text = None /\ x = vertex_extraction_of E text.
Proof.
  rewrite extract_entities_vertex_ai_run. cbn [fst].
  destruct (vertex_extraction_fault E text); [discriminate|]. by intros [= <-].
Qed.

(** The producer returns whenever the generative call does not raise
    JSONDecodeError. *)
Lemma vertex_extraction_fault_none (text : string) :
  (forall msg, generate_content E (Prompts.ENTITY_EXTRACTION_PROMPT text) true
               <> Raise (JSONDecodeError msg)) ->
  vertex_extraction_fault E text = None.
Proof.
  intros Hno. unfold vertex_extraction_fault.
  destruct (generate_content E _ true) as [t|e]; [done|].
  destruct e; try done. by destruct (Hno msg).
Qed.

Lemma extract_entities_nl_api_run (text : string) (w : world) :
  extract_entities_nl_api E text w = (Ret (nl_entities_of E text), w).
Proof.
  unfold extract_entities_nl_api, nl_entities_of, try_except, attempt, bind, pure_call, ret.
  by destruct (analyze_entities E text).
Qed.

Lemma extract_entities_spacy_run (text : string) (w : world) :
  extract_entities_spacy E text w = (Ret (spacy_entities_of E text), w).
Proof.
  unfold extract_entities_spacy, spacy_entities_of, try_except, attempt, bind, pure_call, ret.
  destruct (nlp_spacy_ok E); simpl; [|done].
  by destruct (spacy_ents E text).
Qed.

End ProducerFacts.

Lemma world_eq (s : gmap string doc) (i : gmap string embedding) (t t' : list event) :
  t = t' -> World s i t = World s i t'.
Proof. by intros ->. Qed.

(** One row of the loop, whatever the world it starts in. *)
Lemma process_row_effect (E : Env) (row : Row) (w : world) :
  process_row E row w = (fst (row_effect E row), apply_effect (snd (row_effect E row)) w).
Proof.
  unfold process_row.
  rewrite (bind_run _ _ _ _ _ (summarize_gemini_run E _ _)).
  rewrite (bind_run _ _ _ _ _ (summarize_textrank_run E _ _)).
  unfold row_effect.
  destruct (vertex_extraction_fault E (row_document row)) as [ex|] eqn:Hx.
  - unfold bind at 1. rewrite extract_entities_vertex_ai_run, Hx.
    unfold apply_effect, log.
    cbn beta iota zeta delta [fst snd store index trace eff_sets eff_upserts
                              eff_events write_all fold_left].
    f_equal. apply world_eq. by rewrite <- !app_assoc.
  - assert (extract_entities_vertex_ai E (row_document row)
              (log (EvGenerate (Prompts.GEMINI_SUMMARIZATION_PROMPT (row_document row)) false) w)
            = (Ret (vertex_extraction_of E (row_document row)),
               log (EvGenerate (Prompts.ENTITY_EXTRACTION_PROMPT (row_document row)) true)
                 (log (EvGenerate (Prompts.GEMINI_SUMMARIZATION_PROMPT (row_document row)) false)
                    w))) as Hrun
      by (rewrite extract_entities_vertex_ai_run; by rewrite Hx).
    rewrite (bind_run _ _ _ _ _ Hrun).
    rewrite (bind_run _ _ _ _ _ (extract_entities_nl_api_run E _ _)).
    rewrite (bind_run _ _ _ _ _ (extract_entities_spacy_run E _ _)).
    unfold try_except, bind, attempt, embed, call, ret.
    fold (doc_id_of E row). fold (record_of E row).
    unfold firestore_set, upsert_datapoints.
    destruct (get_embeddings E (row_document row)) as [v|e];
      [destruct (firestore_set_fault E (doc_id_of E row)) as [e|];
         [|destruct (index_endpoint_ok E);
             [destruct (upsert_fault E (doc_id_of E row) v) as [e|]|]]|];
      unfold apply_effect, log, enrichment_events;
      cbn beta iota zeta delta [fst snd store index trace eff_sets eff_upserts
                                eff_events write_all fold_left];
      f_equal; apply world_eq; by rewrite <- !app_assoc.
Qed.

Lemma write_all_app {V} (ws ws' : list (string * V)) (m : gmap string V) :
  write_all (ws ++ ws') m = write_all ws' (write_all ws m).
Proof. unfold write_all. apply fold_left_app. Qed.

Lemma apply_effect_app (d d' : effect) (w : world) :
  apply_effect (effect_app d d') w = apply_effect d' (apply_effect d w).
Proof.
  unfold apply_effect, effect_app. cbn [store index trace eff_sets eff_upserts eff_events].
  by rewrite !write_all_app, app_assoc.
Qed.

Lemma apply_effect_nil (w : world) : apply_effect (Effect [] [] []) w = w.
Proof. unfold apply_effect. simpl. rewrite app_nil_r. by destruct w. Qed.

(** The loop over the rows: it stops at the first row that raises. *)
Lemma for_each_rows_effect (E : Env) (rows : list Row) :
  forall w : world,
  for_each (process_row E) rows w =
  (fst (rows_effect E rows), apply_effect (snd (rows_effect E rows)) w).
Proof.
  induction rows as [|row rest IH]; intros w.
  - simpl. unfold ret. by rewrite apply_effect_nil.
  - cbn [for_each rows_effect]. unfold bind. rewrite process_row_effect.
    destruct (row_effect E row) as [[[]|e] d]; cbn [fst snd]; [|done].
    rewrite IH. destruct (rows_effect E rest) as [r d']. cbn [fst snd].
    by rewrite apply_effect_app.
Qed.

(** The loader reads and samples; it leaves the world as it found it. *)
Lemma load_and_sample_data_run (E : Env) (n_samples : Z) (max_words : option Z)
    (random_state : Z) (w : world) :
  load_and_sample_data E n_samples max_words random_state w =
  (load_result E n_samples max_words random_state, w).
Proof.
  unfold load_and_sample_data, load_result, word_filter, try_except, attempt, bind,
    pure_call, ret, raise.
  destruct (read_dataset E) as [full_df|e]; [|done]. cbn beta iota zeta.
  destruct max_words as [mw|]; cbn [bool_decide andb].
  - rewrite bool_decide_eq_true_2 by (by eexists). cbn [andb].
    destruct (has_text_column full_df); cbn [negb]; [|reflexivity].
    destruct (Z.of_nat (length (filter_pool (Some mw) full_df)) <? n_samples);
      [reflexivity|].
    destruct (df_sample E n_samples random_state _); reflexivity.
  - rewrite bool_decide_eq_false_2 by (by intros [? ?]). cbn [andb filter_pool].
    destruct (Z.of_nat (length full_df) <? n_samples); [reflexivity|].
    destruct (df_sample E n_samples random_state _); reflexivity.
Qed.

Lemma run_pipeline_effect (E : Env) (samples : Z) (w : world) :
  run_pipeline E samples w =
  (fst (pipeline_effect E samples), apply_effect (snd (pipeline_effect E samples)) w).
Proof.
  unfold run_pipeline, pipeline_effect, bind, attempt.
  rewrite load_and_sample_data_run.
  destruct (load_result E samples (Some 1000) 42) as [rows|e]; cbn [fst snd].
  - apply for_each_rows_effect.
  - unfold ret. by rewrite apply_effect_nil.
Qed.

(** ** Keyed overwrites *)

(** The last value written under [k] by a list of writes, if any. *)
Lemma write_all_lookup {V} (ws : list (string * V)) :
  forall (m : gmap string V) (k : string),
  write_all ws m !! k =
  match last (List.filter (fun kv => bool_decide (kv.1 = k)) ws) with
  | Some kv => Some kv.2
  | None => m !! k
  end.
Proof.
  induction ws as [|[k' v'] ws IH]; intros m k; [done|].
  cbn [write_all fold_left List.filter fst snd]. fold (write_all ws (<[k':=v']> m)).
  rewrite IH. cbn [fst]. destruct (bool_decide (k' = k)) eqn:Hk.
  - apply bool_decide_eq_true in Hk as ->. rewrite last_cons.
    destruct (last (List.filter _ ws)); [done|]. cbn [snd]. by rewrite lookup_insert_eq.
  - apply bool_decide_eq_false in Hk.
    destruct (last (List.filter _ ws)); [done|]. by rewrite lookup_insert_ne.
Qed.

(** Replaying a list of keyed overwrites changes nothing. *)
Lemma write_all_idempotent {V} (ws : list (string * V)) (m : gmap string V) :
  write_all ws (write_all ws m) = write_all ws m.
Proof.
  apply map_eq. intros k. rewrite (write_all_lookup ws (write_all ws m)).
  rewrite (write_all_lookup ws m). by destruct (last _).
Qed.

(** ** The ingestion run *)

(** C7 at the input on which the code departs from it.  The blob holds no
    record, so the frame read has no column; one sample is asked for with the
    word filter of the pipeline.  The pool the filter would leave has no row,
    fewer than the one asked for, yet the loader ends with KeyError for the
    column and not with the ValueError of its docstring: selecting the column
    comes before the size check.  The run still ends without a write. *)
Lemma empty_data_set_raises_key_error :
  let E := Demo.env Demo.emb_ok (Ret []) Demo.gen_ok [] in
  read_dataset E = Ret []
  /\ Z.of_nat (length (filter_pool (Some 1000) [])) < 1
  /\ load_and_sample_data E 1 (Some 1000) 42 Demo.stocked_world
     = (Raise (KeyError "document"), Demo.stocked_world)
  /\ (forall msg, fst (load_and_sample_data E 1 (Some 1000) 42 Demo.stocked_world)
                  <> Raise (ValueError msg))
  /\ run_pipeline E 1 Demo.stocked_world = (Ret tt, Demo.stocked_world).
Proof.
  cbv zeta. split; [reflexivity|]. split; [reflexivity|]. split; [reflexivity|].
  split; [intros msg; discriminate|reflexivity].
Qed.



(** The case of the specification, evaluated: 1000 samples asked of a pool
    of 999 rows. *)
Example pool_of_999 :
  length (filter_pool (Some 1000) Demo.dataset) = 999%nat
  /\ load_result (Demo.env Demo.emb_ok (Ret []) Demo.gen_ok Demo.dataset) 1000 (Some 1000) 42
     = Raise (ValueError "Filtered dataset has only 999 rows; 1000 requested.").
Proof. split; vm_compute; reflexivity. Qed.

(** A store write of a row comes straight after the embedding call of that
    row, and that call returned. *)
Lemma store_write_follows_embedding (E : Env) (row : Row) (w : world) :
  calls is_doc_set (trace (snd (process_row E row w))) <> calls is_doc_set (trace w) ->
  exists v pre post,
    get_embeddings E (row_document row) = Ret v
    /\ trace (snd (process_row E row w)) =
       pre ++ EvEmbed (row_document row)
           :: EvDocSet (doc_id_of E row) (record_of E row) :: post
    /\ calls is_doc_set pre = calls is_doc_set (trace w).
Proof.
  rewrite process_row_effect. unfold row_effect.
  set (g1 := EvGenerate (Prompts.GEMINI_SUMMARIZATION_PROMPT (row_document row)) false).
  set (g2 := EvGenerate (Prompts.ENTITY_EXTRACTION_PROMPT (row_document row)) true).
  assert (calls is_doc_set (trace w ++ [g1; g2]) = calls is_doc_set (trace w)) as Hpre
    by (rewrite calls_app; cbn; lia).
  destruct (vertex_extraction_fault E (row_document row)) as [ex|].
  { intros Hneq. exfalso. apply Hneq. unfold apply_effect. cbn [snd trace eff_events].
    exact Hpre. }
  destruct (get_embeddings E (row_document row)) as [v|e].
  - intros _. exists v, (trace w ++ [g1; g2]).
    destruct (firestore_set_fault E (doc_id_of E row)) as [e|];
      [|destruct (index_endpoint_ok E);
          [destruct (upsert_fault E (doc_id_of E row) v) as [e|]|]];
      eexists; (split; [reflexivity|]); (split; [|exact Hpre]);
      unfold apply_effect, enrichment_events; fold g1; fold g2;
      cbn [snd trace eff_events]; by rewrite <- !app_assoc.
  - intros Hneq. exfalso. apply Hneq.
    unfold apply_effect, enrichment_events. cbn [snd trace eff_events].
    rewrite calls_app. cbn. lia.
Qed.

(** A row whose embedding call would raise leaves store and index alone
    and records no write, however its step ends. *)
Lemma no_write_without_embedding (E : Env) (row : Row) (w : world) (e : exn) :
  get_embeddings E (row_document row) = Raise e ->
  store (snd (process_row E row w)) = store w
  /\ index (snd (process_row E row w)) = index w
  /\ calls is_doc_set (trace (snd (process_row E row w))) = calls is_doc_set (trace w)
  /\ calls is_upsert (trace (snd (process_row E row w))) = calls is_upsert (trace w).
Proof.
  intros Hemb. rewrite process_row_effect. unfold row_effect. rewrite Hemb.
  destruct (vertex_extraction_fault E (row_document row));
    unfold apply_effect, enrichment_events; cbn [snd store index trace eff_sets
      eff_upserts eff_events write_all fold_left];
    rewrite !calls_app; cbn; repeat split; lia.
Qed.

(** C8. A row whose embedding call raises is skipped whole: the step of the
    row leaves the store and the index as they were and records no store
    write and no upsert; it returns normally and the loop goes on with the
    remaining rows (the step reaches the embedding call when the extraction
    producer before it has returned, which it does unless the generative call
    raised JSONDecodeError).  For every row, a store write is made only
    straight after that row's embedding call, which then returned a vector. *)
Theorem embedding_failure_skips_row (E : Env) (row : Row) (rest : list Row)
    (w : world) (e : exn) :
  get_embeddings E (row_document row) = Raise e ->
  exists w',
    snd (process_row E row w) = w'
    /\ store w' = store w /\ index w' = index w
    /\ calls is_doc_set (trace w') = calls is_doc_set (trace w)
    /\ calls is_upsert (trace w') = calls is_upsert (trace w)
    /\ ((forall msg,
           generate_content E (Prompts.ENTITY_EXTRACTION_PROMPT (row_document row)) true
           <> Raise (JSONDecodeError msg)) ->
        process_row E row w = (Ret tt, w')
        /\ for_each (process_row E) (row :: rest) w = for_each (process_row E) rest w')
    /\ (forall row0 w0,
          calls is_doc_set (trace (snd (process_row E row0 w0)))
            <> calls is_doc_set (trace w0) ->
          exists v pre post,
            get_embeddings E (row_document row0) = Ret v
            /\ trace (snd (process_row E row0 w0)) =
               pre ++ EvEmbed (row_document row0)
                   :: EvDocSet (doc_id_of E row0) (record_of E row0) :: post
            /\ calls is_doc_set pre = calls is_doc_set (trace w0)).
Proof.
  intros Hemb. exists (snd (process_row E row w)).
  destruct (no_write_without_embedding E row w e Hemb) as (Hs & Hi & Hset & Hup).
  split; [reflexivity|]. split; [exact Hs|]. split; [exact Hi|].
  split; [exact Hset|]. split; [exact Hup|]. split.
  - intros Hjson.
    assert (process_row E row w = (Ret tt, snd (process_row E row w))) as Hrun.
    { rewrite process_row_effect. unfold row_effect.
      rewrite (vertex_extraction_fault_none E _ Hjson), Hemb. reflexivity. }
    split; [exact Hrun|]. cbn [for_each]. unfold bind. by rewrite Hrun.
  - intros row0 w0. apply store_write_follows_embedding.
Qed.

Lemma embedding_failure_skips_row_witness :
  exists w',
    snd (process_row (Demo.env Demo.emb_down (Ret []) Demo.gen_ok []) (Demo.short_row 1)
           Demo.stocked_world) = w'
    /\ store w' = store Demo.stocked_world /\ index w' = index Demo.stocked_world
    /\ calls is_doc_set (trace w') = calls is_doc_set (trace Demo.stocked_world)
    /\ calls is_upsert (trace w') = calls is_upsert (trace Demo.stocked_world)
    /\ ((forall msg,
           generate_content (Demo.env Demo.emb_down (Ret []) Demo.gen_ok [])
             (Prompts.ENTITY_EXTRACTION_PROMPT (row_document (Demo.short_row 1))) true
           <> Raise (JSONDecodeError msg)) ->
        process_row (Demo.env Demo.emb_down (Ret []) Demo.gen_ok []) (Demo.short_row 1)
          Demo.stocked_world = (Ret tt, w')
        /\ for_each (process_row (Demo.env Demo.emb_down (Ret []) Demo.gen_ok []))
             (Demo.short_row 1 :: [Demo.short_row 2]) Demo.stocked_world =
           for_each (process_row (Demo.env Demo.emb_down (Ret []) Demo.gen_ok []))
             [Demo.short_row 2] w')
    /\ (forall row0 w0,
          calls is_doc_set
            (trace (snd (process_row (Demo.env Demo.emb_down (Ret []) Demo.gen_ok []) row0 w0)))
            <> calls is_doc_set (trace w0) ->
          exists v pre post,
            get_embeddings (Demo.env Demo.emb_down (Ret []) Demo.gen_ok [])
              (row_document row0) = Ret v
            /\ trace (snd (process_row (Demo.env Demo.emb_down (Ret []) Demo.gen_ok []) row0 w0)) =
               pre ++ EvEmbed (row_document row0)
                   :: EvDocSet (doc_id_of (Demo.env Demo.emb_down (Ret []) Demo.gen_ok []) row0)
                        (record_of (Demo.env Demo.emb_down (Ret []) Demo.gen_ok []) row0)
                   :: post
            /\ calls is_doc_set pre = calls is_doc_set (trace w0)).
Proof.
  exact (embedding_failure_skips_row
           (Demo.env Demo.emb_down (Ret []) Demo.gen_ok []) (Demo.short_row 1)
           [Demo.short_row 2] Demo.stocked_world
           (ServiceError "embedding model unavailable") eq_refl).
Defined.

(** The skipped row of the witness, evaluated: the step returns normally
    and the loop goes on to the second row. *)
Example skipped_row_returns :
  let E := Demo.env Demo.emb_down (Ret []) Demo.gen_ok [] in
  fst (process_row E (Demo.short_row 1) Demo.stocked_world) = Ret tt
  /\ fst (for_each (process_row E) [Demo.short_row 1; Demo.short_row 2] Demo.stocked_world)
     = Ret tt
  /\ store (snd (for_each (process_row E) [Demo.short_row 1; Demo.short_row 2]
                   Demo.stocked_world)) = store Demo.stocked_world.
Proof. cbv zeta. repeat split; vm_compute; reflexivity. Qed.

(** C9. Running the ingestion a second time, from the world the first run
    left, with the same oracles, leaves the document store (and the index)
    exactly as the first run left it and ends the same way.  Each store write
    replaces the whole record under the article id: after the step of a row
    whose producers and embedding returned and whose write did not raise,
    the store holds under the row's id the record just built, whatever was
    there. *)
Theorem run_pipeline_idempotent (E : Env) (samples : Z) (w : world) :
  let w1 := snd (run_pipeline E samples w) in
  let w2 := snd (run_pipeline E samples w1) in
  store w2 = store w1
  /\ index w2 = index w1
  /\ fst (run_pipeline E samples w1) = fst (run_pipeline E samples w)
  /\ (forall row w0 v,
        (forall msg,
           generate_content E (Prompts.ENTITY_EXTRACTION_PROMPT (row_document row)) true
           <> Raise (JSONDecodeError msg)) ->
        get_embeddings E (row_document row) = Ret v ->
        firestore_set_fault E (doc_id_of E row) = None ->
        store (snd (process_row E row w0)) !! doc_id_of E row = Some (record_of E row)).
Proof.
  cbv zeta. rewrite !run_pipeline_effect. cbn [fst snd].
  unfold apply_effect. cbn [store index].
  split; [apply write_all_idempotent|]. split; [apply write_all_idempotent|].
  split; [done|].
  intros row w0 v Hjson Hemb Hset. rewrite process_row_effect. unfold row_effect.
  rewrite (vertex_extraction_fault_none E _ Hjson), Hemb, Hset.
  destruct (index_endpoint_ok E);
    [destruct (upsert_fault E (doc_id_of E row) v)|];
    cbn [snd apply_effect store eff_sets write_all fold_left fst];
    by rewrite lookup_insert_eq.
Qed.

(** Two rows ingested twice in the demo environment: the store after the
    second run is the store after the first, and it holds two documents. *)
Example run_twice_two_rows :
  let E := Demo.env Demo.emb_ok (Ret []) Demo.gen_ok Demo.two_rows in
  let w1 := snd (run_pipeline E 2 Demo.empty_world) in
  let w2 := snd (run_pipeline E 2 w1) in
  store w2 = store w1 /\ size (store w1) = 2%nat
  /\ calls is_doc_set (trace w1) = 2%nat /\ calls is_doc_set (trace w2) = 4%nat.
Proof. cbv zeta. repeat split; vm_compute; reflexivity. Qed.

(** * Further properties of the agent *)

(** Whatever the lookups do, the assembler only reads: it leaves store and
    index alone and records lookups of a prefix of the ids, in order. *)
Lemma get_article_context_loop_world (E : Env) (ids : list string) :
  forall (acc : list ContextEntry) (w : world),
  store (snd (get_article_context_loop E ids acc w)) = store w
  /\ index (snd (get_article_context_loop E ids acc w)) = index w
  /\ exists n, trace (snd (get_article_context_loop E ids acc w)) =
               trace w ++ map EvDocGet (take n ids).
Proof.
  induction ids as [|id ids IH]; intros acc w.
  - simpl. repeat split. exists 0%nat. simpl. by rewrite app_nil_r.
  - simpl. unfold bind, firestore_get.
    destruct (firestore_get_fault E id) as [e|].
    + simpl. repeat split. exists 1%nat. by destruct ids.
    + assert (forall acc',
                store (snd (get_article_context_loop E ids acc' (log (EvDocGet id) w)))
                  = store w
                /\ index (snd (get_article_context_loop E ids acc' (log (EvDocGet id) w)))
                  = index w
                /\ exists n,
                     trace (snd (get_article_context_loop E ids acc' (log (EvDocGet id) w)))
                     = trace w ++ map EvDocGet (take n (id :: ids))) as Hstep.
      { intros acc'. destruct (IH acc' (log (EvDocGet id) w)) as (Hs & Hi & n & Ht).
        split; [exact Hs|]. split; [exact Hi|]. exists (S n).
        rewrite Ht. simpl. by rewrite <- app_assoc. }
      simpl. destruct (store w !! id); apply Hstep.
Qed.

(** [answer] leaves store and index alone and records no write. *)
Lemma answer_world (E : Env) (top_k : Z) (query : string) (w : world) :
  store (snd (answer E top_k query w)) = store w
  /\ index (snd (answer E top_k query w)) = index w
  /\ calls is_write (trace (snd (answer E top_k query w))) = calls is_write (trace w).
Proof.
  unfold answer, bind.
  destruct (_find_relevant_articles E top_k query w) as [r1 w1] eqn:Hr.
  apply find_relevant_articles_world in Hr as (Hs1 & Hi1 & evs & Ht1 & Hevs).
  assert (calls is_write (trace w1) = calls is_write (trace w)) as Hc1.
  { rewrite Ht1, calls_app, (calls_none is_write evs); [lia|].
    intros e He. by apply Hevs. }
  destruct r1 as [ids|e]; [|done].
  destruct ids as [|id ids]; cbn [truthy negb]; [done|].
  unfold _get_article_context.
  destruct (get_article_context_loop_world E (id :: ids) [] w1) as (Hs2 & Hi2 & n & Ht2).
  destruct (get_article_context_loop E (id :: ids) [] w1) as [r2 w2].
  cbn [snd] in Hs2, Hi2, Ht2.
  assert (calls is_write (trace w2) = calls is_write (trace w)) as Hc2.
  { rewrite Ht2, calls_app, calls_map_doc_get by done. lia. }
  destruct r2 as [context|e]; [|cbn [snd]; by rewrite Hs2, Hi2, Hs1, Hi1].
  destruct context as [|c context]; cbn [truthy negb].
  - cbn [snd ret]. by rewrite Hs2, Hi2, Hs1, Hi1.
  - rewrite synthesize_unfold. cbn [snd ret log store index trace].
    rewrite Hs2, Hi2, Hs1, Hi1. repeat split.
    rewrite calls_app, Hc2. cbn. lia.
Qed.

(** X1. The agent only reads.  Whatever the services answer and whether
    [answer] returns or raises, the document store and the vector index are
    the same after the call, and no store write and no upsert is recorded. *)
Theorem answer_is_read_only (E : Env) (top_k : Z) (query : string) (w : world) :
  store (snd (answer E top_k query w)) = store w
  /\ index (snd (answer E top_k query w)) = index w
  /\ calls is_write (trace (snd (answer E top_k query w))) = calls is_write (trace w).
Proof. apply answer_world. Qed.

(** X2. The path on which everything answers: the ids retrieved, at least
    one of them stored.  [answer] returns what the synthesizer returns for
    the entries found, and the calls it makes are, in this order, one
    embedding of the query, one neighbour lookup for [top_k], one document
    lookup per retrieved id (duplicates included) and one generative call
    with the prompt rendered from the query and the entries found. *)
Theorem answer_happy_path (E : Env) (top_k : Z) (query : string) (w : world)
    (v : embedding) (nbs : list Neighbor) :
  get_embeddings E query = Ret v ->
  find_neighbors E (index w) v top_k = Ret nbs ->
  (forall id, id ∈ map nb_id nbs -> firestore_get_fault E id = None) ->
  found_entries E (store w) (map nb_id nbs) <> [] ->
  let context := found_entries E (store w) (map nb_id nbs) in
  let prompt := render_prompt E query context in
  answer E top_k query w =
    (Ret match generate_content E prompt false with
         | Ret text => text
         | Raise _ => "There was an error while generating the final answer."
         end,
     World (store w) (index w)
       (trace w ++ [EvEmbed query; EvFindNeighbors v top_k]
                ++ map EvDocGet (map nb_id nbs)
                ++ [EvGenerate prompt false])).
Proof.
  intros Hemb Hfn Hok Hfound. cbv zeta.
  unfold answer, bind. rewrite find_relevant_articles_unfold, Hemb. cbn zeta. rewrite Hfn.
  destruct (map nb_id nbs) as [|id ids] eqn:Hids; [done|]. cbn [truthy negb].
  rewrite (get_article_context_ok E _ _ Hok). cbn [log store index trace].
  destruct (found_entries E (store w) (id :: ids)) as [|c context] eqn:Hctx; [done|].
  cbn [truthy negb]. rewrite synthesize_unfold. unfold ret, log. cbn [store index trace].
  f_equal. apply world_eq. by rewrite <- !app_assoc.
Qed.

Lemma answer_happy_path_witness :
  answer (Demo.env Demo.emb_ok (Ret Demo.three_neighbors) Demo.gen_ok []) 10 Demo.query
    Demo.drifted_world =
    (Ret "The council approved the budget [a1].",
     World (store Demo.drifted_world) (index Demo.drifted_world)
       ([] ++ [EvEmbed Demo.query; EvFindNeighbors Demo.vec 10]
           ++ map EvDocGet ["A"; "B"; "C"]
           ++ [EvGenerate
                 (render_prompt (Demo.env Demo.emb_ok (Ret Demo.three_neighbors) Demo.gen_ok [])
                    Demo.query
                    (found_entries (Demo.env Demo.emb_ok (Ret Demo.three_neighbors) Demo.gen_ok [])
                       (store Demo.drifted_world) ["A"; "B"; "C"])) false])).
Proof.
  apply (answer_happy_path
           (Demo.env Demo.emb_ok (Ret Demo.three_neighbors) Demo.gen_ok []) 10 Demo.query
           Demo.drifted_world Demo.vec Demo.three_neighbors).
  - reflexivity.
  - reflexivity.
  - intros id _. reflexivity.
  - vm_compute. discriminate.
Defined.

(** X3. An exception of the retriever leaves [answer] unchanged and nothing
    is called after it: when the embedding call raises, the vector index is
    not queried. *)
Theorem retrieval_error_propagates (E : Env) (top_k : Z) (query : string)
    (w w1 : world) (e : exn) :
  _find_relevant_articles E top_k query w = (Raise e, w1) ->
  answer E top_k query w = (Raise e, w1)
  /\ calls is_doc_get (trace w1) = calls is_doc_get (trace w)
  /\ calls is_generate (trace w1) = calls is_generate (trace w)
  /\ (forall e', get_embeddings E query = Raise e' ->
        e = e' /\ trace w1 = trace w ++ [EvEmbed query]).
Proof.
  intros Hr. split; [unfold answer, bind; by rewrite Hr|].
  pose proof (find_relevant_articles_world _ _ _ _ _ _ Hr) as (_ & _ & evs & Ht & Hevs).
  split; [|split].
  - rewrite Ht, calls_app, (calls_none is_doc_get evs); [lia|].
    intros ev He. by apply Hevs.
  - rewrite Ht, calls_app, (calls_none is_generate evs); [lia|].
    intros ev He. by apply Hevs.
  - intros e' Hemb. rewrite find_relevant_articles_unfold, Hemb in Hr.
    by injection Hr as <- <-.
Qed.

Lemma retrieval_error_propagates_witness :
  answer (Demo.env Demo.emb_down (Ret Demo.two_neighbors) Demo.gen_ok []) 10 Demo.query
    Demo.stocked_world =
    (Raise (ServiceError "embedding model unavailable"),
     log (EvEmbed Demo.query) Demo.stocked_world)
  /\ calls is_doc_get (trace (log (EvEmbed Demo.query) Demo.stocked_world))
     = calls is_doc_get (trace Demo.stocked_world)
  /\ calls is_generate (trace (log (EvEmbed Demo.query) Demo.stocked_world))
     = calls is_generate (trace Demo.stocked_world)
  /\ (forall e',
        get_embeddings (Demo.env Demo.emb_down (Ret Demo.two_neighbors) Demo.gen_ok [])
          Demo.query = Raise e' ->
        ServiceError "embedding model unavailable" = e'
        /\ trace (log (EvEmbed Demo.query) Demo.stocked_world)
           = trace Demo.stocked_world ++ [EvEmbed Demo.query]).
Proof.
  exact (retrieval_error_propagates
           (Demo.env Demo.emb_down (Ret Demo.two_neighbors) Demo.gen_ok []) 10 Demo.query
           Demo.stocked_world (log (EvEmbed Demo.query) Demo.stocked_world)
           (ServiceError "embedding model unavailable") eq_refl).
Defined.

Lemma get_article_context_loop_raises (E : Env) (ids : list string) :
  forall (acc : list ContextEntry) (w : world) (id : string) (e0 : exn),
  id ∈ ids -> firestore_get_fault E id = Some e0 ->
  exists e w' id',
    get_article_context_loop E ids acc w = (Raise e, w')
    /\ id' ∈ ids /\ firestore_get_fault E id' = Some e.
Proof.
  induction ids as [|i ids IH]; intros acc w id e0 Hin Hfault.
  - by apply elem_of_nil in Hin.
  - simpl. unfold bind, firestore_get.
    destruct (firestore_get_fault E i) as [e|] eqn:Hi.
    + exists e, (log (EvDocGet i) w), i. split; [done|]. split; [by left|done].
    + apply elem_of_cons in Hin as [->|Hin]; [congruence|].
      assert (forall acc', exists e w' id',
                get_article_context_loop E ids acc' (log (EvDocGet i) w) = (Raise e, w')
                /\ id' ∈ i :: ids /\ firestore_get_fault E id' = Some e) as Hstep.
      { intros acc'.
        destruct (IH acc' (log (EvDocGet i) w) id e0 Hin Hfault) as (e & w' & id' & H1 & H2 & H3).
        exists e, w', id'. split; [done|]. split; [by right|done]. }
      simpl. destruct (store w !! i); apply Hstep.
Qed.

(** X4. A document lookup that raises is not caught either: [answer] ends
    with the exception of one of the lookups and the generative model is not
    called. *)
Theorem lookup_error_propagates (E : Env) (top_k : Z) (query : string)
    (w w1 : world) (ids : list string) (id : string) (e0 : exn) :
  _find_relevant_articles E top_k query w = (Ret ids, w1) ->
  id ∈ ids ->
  firestore_get_fault E id = Some e0 ->
  exists e w',
    answer E top_k query w = (Raise e, w')
    /\ (exists id', id' ∈ ids /\ firestore_get_fault E id' = Some e)
    /\ calls is_generate (trace w') = calls is_generate (trace w).
Proof.
  intros Hr Hin Hfault.
  destruct (get_article_context_loop_raises E ids [] w1 id e0 Hin Hfault)
    as (e & w' & id' & Hloop & Hin' & Hf').
  exists e, w'. split; [|split; [by exists id'|]].
  - unfold answer, bind. rewrite Hr.
    destruct ids as [|i ids]; [by apply elem_of_nil in Hin|]. cbn [truthy negb].
    unfold _get_article_context. by rewrite Hloop.
  - pose proof (find_relevant_articles_world _ _ _ _ _ _ Hr) as (_ & _ & evs & Ht & Hevs).
    destruct (get_article_context_loop_world E ids [] w1) as (_ & _ & n & Ht2).
    rewrite Hloop in Ht2. cbn [snd] in Ht2.
    rewrite Ht2, Ht, !calls_app, calls_map_doc_get by done.
    rewrite (calls_none is_generate evs); [lia|]. intros ev He. by apply Hevs.
Qed.

Lemma lookup_error_propagates_witness :
  exists e w',
    answer (Faults.with_get_fault Faults.firestore_down
              (Demo.env Demo.emb_ok (Ret Demo.two_neighbors) Demo.gen_ok []))
      10 Demo.query Demo.stocked_world = (Raise e, w')
    /\ (exists id', id' ∈ ["a1"; "a2"]
          /\ firestore_get_fault
               (Faults.with_get_fault Faults.firestore_down
                  (Demo.env Demo.emb_ok (Ret Demo.two_neighbors) Demo.gen_ok [])) id' = Some e)
    /\ calls is_generate (trace w') = calls is_generate (trace Demo.stocked_world).
Proof.
  apply (lookup_error_propagates
           (Faults.with_get_fault Faults.firestore_down
              (Demo.env Demo.emb_ok (Ret Demo.two_neighbors) Demo.gen_ok []))
           10 Demo.query Demo.stocked_world
           (log (EvFindNeighbors Demo.vec 10) (log (EvEmbed Demo.query) Demo.stocked_world))
           ["a1"; "a2"] "a1" (ServiceError "Firestore unavailable")).
  - reflexivity.
  - by left.
  - reflexivity.
Defined.

(** ** The prompt handed to the generative model *)

Lemma string_app_assoc (a b c : string) : (a +:+ b) +:+ c = a +:+ (b +:+ c).
Proof. induction a as [|x a IH]; [done|]. change (String x ((a +:+ b) +:+ c) = String x (a +:+ (b +:+ c))). by f_equal. Qed.

Lemma string_app_nil_r (a : string) : a +:+ "" = a.
Proof. induction a as [|x a IH]; [done|]. change (String x (a +:+ "") = String x a). by f_equal. Qed.

(** The text of the sources is the blocks of the entries one after another,
    numbered from the index the loop starts at. *)
Lemma build_context_str_app (E : Env) (context : list ContextEntry) :
  forall (i : nat) (acc : string),
  build_context_str E i context acc =
  acc +:+ build_context_str E i context "".
Proof.
  induction context as [|d context IH]; intros i acc; cbn [build_context_str].
  - by rewrite string_app_nil_r.
  - rewrite (IH (S i) (acc +:+ source_block E i d)).
    rewrite (IH (S i) ("" +:+ source_block E i d)).
    change ("" +:+ source_block E i d) with (source_block E i d).
    by rewrite string_app_assoc.
Qed.

Lemma build_context_str_block (E : Env) (context : list ContextEntry) :
  forall (i k : nat) (d : ContextEntry),
  context !! k = Some d ->
  exists pre post,
    build_context_str E i context "" = pre +:+ source_block E (i + k) d +:+ post.
Proof.
  induction context as [|c context IH]; intros i k d Hk; [done|].
  cbn [build_context_str]. rewrite build_context_str_app.
  change ("" +:+ source_block E i c) with (source_block E i c).
  destruct k as [|k].
  - injection Hk as ->. exists "", (build_context_str E (S i) context "").
    by rewrite Nat.add_0_r.
  - destruct (IH (S i) k d Hk) as (pre & post & Heq).
    exists (source_block E i c +:+ pre), post. rewrite Heq.
    replace (i + S k)%nat with (S i + k)%nat by lia.
    by rewrite !string_app_assoc.
Qed.

(** Containment of a text in a joined list of lines. *)
Lemma contains_app_r (a b t : string) :
  (exists pre post, b = pre +:+ t +:+ post) ->
  exists pre post, a +:+ b = pre +:+ t +:+ post.
Proof.
  intros (pre & post & ->). exists (a +:+ pre), post. by rewrite string_app_assoc.
Qed.

Lemma contains_app_l (a b t : string) :
  (exists pre post, a = pre +:+ t +:+ post) ->
  exists pre post, a +:+ b = pre +:+ t +:+ post.
Proof.
  intros (pre & post & ->). exists pre, (post +:+ b). by rewrite !string_app_assoc.
Qed.

Lemma contains_concat (sep : string) (lines : list string) (x t : string) :
  x ∈ lines ->
  (exists pre post, x = pre +:+ t +:+ post) ->
  exists pre post, String.concat sep lines = pre +:+ t +:+ post.
Proof.
  intros Hin Hx. induction lines as [|y lines IH]; [by apply elem_of_nil in Hin|].
  apply elem_of_cons in Hin as [->|Hin].
  - destruct lines as [|z lines]; [exact Hx|].
    change (String.concat sep (y :: z :: lines))
      with (y +:+ (sep +:+ String.concat sep (z :: lines))).
    by apply contains_app_l.
  - destruct lines as [|z lines]; [by apply elem_of_nil in Hin|].
    change (String.concat sep (y :: z :: lines))
      with (y +:+ (sep +:+ String.concat sep (z :: lines))).
    apply contains_app_r, contains_app_r, IH, Hin.
Qed.

(** X5. The rendered prompt contains the query as typed, and for the entry
    at position k of the context its block, numbered k+1, with its id, its
    summary and its key information. *)
Theorem render_prompt_contains (E : Env) (query : string) (context : list ContextEntry) :
  (exists pre post, render_prompt E query context = pre +:+ query +:+ post)
  /\ (forall k d, context !! k = Some d ->
        exists pre post,
          render_prompt E query context =
          pre +:+ ("--- Start of Source " +:+ pretty (k + 1)%nat +:+ " ---" +:+ PyStr.nl
                   +:+ "Source ID: " +:+ ctx_id d +:+ PyStr.nl
                   +:+ "Summary: " +:+ py_str E (ctx_summary d) +:+ PyStr.nl
                   +:+ "Key Information Extracted: " +:+ ctx_key_info d +:+ PyStr.nl
                   +:+ "--- End of Source " +:+ pretty (k + 1)%nat +:+ " ---"
                   +:+ PyStr.nl +:+ PyStr.nl) +:+ post).
Proof.
  split.
  - unfold render_prompt, Prompts.NEWS_ANALYST_PROMPT, PyStr.join.
    apply (contains_concat _ _ ("        " +:+ query)).
    + do 8 (apply elem_of_cons; right). apply elem_of_cons. by left.
    + apply contains_app_r. exists "", "". by rewrite string_app_nil_r.
  - intros k d Hk.
    pose proof (build_context_str_block E context 0 k d Hk) as Hblock.
    change (0 + k)%nat with k in Hblock.
    unfold render_prompt, Prompts.NEWS_ANALYST_PROMPT, PyStr.join.
    apply (contains_concat _ _ ("        " +:+ build_context_str E 0 context "")).
    + do 11 (apply elem_of_cons; right). apply elem_of_cons. by left.
    + apply contains_app_r. exact Hblock.
Qed.

(** ** The interactive loop *)

Lemma filter_none (p : event -> bool) (t : list event) :
  (forall e, e ∈ t -> p e = false) -> List.filter p t = [].
Proof.
  induction t as [|e t IH]; intros H; simpl; [done|].
  rewrite (H e) by left. apply IH. intros e' He'. apply H. by right.
Qed.

Lemma filter_embed_doc_gets (ids : list string) :
  List.filter is_embed (map EvDocGet ids) = [].
Proof.
  apply filter_none. intros e He. by apply list_elem_of_fmap in He as (id & -> & _).
Qed.

(** Every call of [answer] asks for the embedding of its query, once,
    whatever follows. *)
Lemma answer_embed_events (E : Env) (top_k : Z) (query : string) (w : world) :
  List.filter is_embed (trace (snd (answer E top_k query w))) =
  List.filter is_embed (trace w) ++ [EvEmbed query].
Proof.
  unfold answer, bind. rewrite find_relevant_articles_unfold.
  destruct (get_embeddings E query) as [v|e];
    [|cbn [snd log trace]; by rewrite List.filter_app].
  cbn zeta.
  set (w1 := log (EvFindNeighbors v top_k) (log (EvEmbed query) w)).
  assert (List.filter is_embed (trace w1) = List.filter is_embed (trace w) ++ [EvEmbed query])
    as H1.
  { unfold w1. cbn [log trace]. rewrite !List.filter_app. cbn. by rewrite app_nil_r. }
  destruct (find_neighbors E (index w) v top_k) as [nbs|e]; [|exact H1].
  destruct (map nb_id nbs) as [|id ids]; cbn [truthy negb]; [exact H1|].
  unfold _get_article_context.
  destruct (get_article_context_loop_world E (id :: ids) [] w1) as (_ & _ & n & Ht2).
  destruct (get_article_context_loop E (id :: ids) [] w1) as [r2 w2].
  cbn [snd] in Ht2.
  assert (List.filter is_embed (trace w2) = List.filter is_embed (trace w) ++ [EvEmbed query])
    as H2.
  { rewrite Ht2, List.filter_app, filter_embed_doc_gets, app_nil_r. exact H1. }
  destruct r2 as [context|e]; [|exact H2].
  destruct context as [|c context]; cbn [truthy negb]; [exact H2|].
  rewrite synthesize_unfold. cbn [snd ret log trace].
  rewrite List.filter_app, H2. cbn. by rewrite app_nil_r.
Qed.

(** The loop is the session over the queries the input offers, followed by
    the farewell. *)
Lemma main_loop_session (E : Env) (inputs : list console) :
  forall (out : list string) (w : world),
  main_loop E inputs out w =
  (Ret (out ++ s_lines (session E (queries_of inputs) w)
            ++ [farewell (s_eof (session E (queries_of inputs) w)) inputs]),
   s_world (session E (queries_of inputs) w)).
Proof.
  induction inputs as [|[query|] rest IH]; intros out w.
  - reflexivity.
  - cbn [main_loop queries_of]. unfold farewell. cbn [ends_with_quit].
    destruct (negb (PyText.nonempty (PyStr.strip query))); [apply IH|].
    destruct (is_quit query); [reflexivity|].
    cbn [session]. unfold bind, attempt.
    destruct (answer E 10 query w) as [r w1].
    destruct r as [final_answer|e].
    + rewrite IH. cbn [s_lines s_eof s_world]. unfold ret, farewell.
      f_equal. f_equal. by rewrite <- !app_assoc.
    + destruct e; try (rewrite IH; cbn [s_lines s_eof s_world]; unfold ret, farewell;
                       f_equal; f_equal; by rewrite <- !app_assoc).
      reflexivity.
  - reflexivity.
Qed.

Lemma session_facts (E : Env) (queries : list string) :
  forall w : world,
  store (s_world (session E queries w)) = store w
  /\ index (s_world (session E queries w)) = index w
  /\ s_sent (session E queries w) `prefix_of` queries
  /\ (s_eof (session E queries w) = false -> s_sent (session E queries w) = queries)
  /\ List.filter is_embed (trace (s_world (session E queries w))) =
     List.filter is_embed (trace w) ++ map EvEmbed (s_sent (session E queries w)).
Proof.
  induction queries as [|query rest IH]; intros w.
  - cbn [session s_world s_sent s_eof map]. split; [done|]. split; [done|].
    split; [done|]. split; [done|]. by rewrite app_nil_r.
  - cbn [session].
    pose proof (answer_embed_events E 10 query w) as Hemb.
    pose proof (answer_world E 10 query w) as (Hs & Hi & _).
    destruct (answer E 10 query w) as [r w1]. cbn [snd] in Hemb, Hs, Hi.
    destruct (IH w1) as (Hs' & Hi' & Hpre & Hall & Hev).
    assert (store (s_world (session E rest w1)) = store w
            /\ index (s_world (session E rest w1)) = index w
            /\ (query :: s_sent (session E rest w1)) `prefix_of` (query :: rest)
            /\ (s_eof (session E rest w1) = false ->
                query :: s_sent (session E rest w1) = query :: rest)
            /\ List.filter is_embed (trace (s_world (session E rest w1))) =
               List.filter is_embed (trace w)
               ++ map EvEmbed (query :: s_sent (session E rest w1))) as Hgo.
    { split; [congruence|]. split; [congruence|]. split; [by apply prefix_cons|].
      split; [intros Heof; by rewrite Hall|].
      rewrite Hev, Hemb. cbn [map]. by rewrite <- app_assoc. }
    destruct r as [final_answer|e]; [exact Hgo|].
    destruct e; try exact Hgo.
    cbn [s_world s_sent s_eof]. split; [done|]. split; [done|].
    split; [by apply prefix_cons, prefix_nil|]. split; [discriminate|exact Hemb].
Qed.

(** X6. The interactive loop never ends in an exception of a service, and
    what it prints and asks is fixed by the queries its input offers (the
    typed lines that are not blank, up to the first quit or exit in any
    letter case, Ctrl-C or end of input).  It prints the banner, then for
    each query put to the agent the thinking line followed by the answer, or
    by the error line when the agent raised, then a farewell.  The queries
    are put in order, each in the world the one before left; all of them are
    put unless the agent raises EOFError, which ends the loop at once.  The
    embedding calls recorded are those of the queries put, and the store and
    the index are left as they were. *)
Theorem agent_main_transcript (E : Env) (inputs : list console) (w : world) :
  let S := session E (queries_of inputs) w in
  agent_main E inputs w =
    (Ret (banner ++ s_lines S ++ [farewell (s_eof S) inputs]), s_world S)
  /\ store (s_world S) = store w
  /\ index (s_world S) = index w
  /\ s_sent S `prefix_of` queries_of inputs
  /\ (s_eof S = false -> s_sent S = queries_of inputs)
  /\ List.filter is_embed (trace (s_world S)) =
     List.filter is_embed (trace w) ++ map EvEmbed (s_sent S).
Proof.
  cbv zeta. split; [apply main_loop_session|apply session_facts].
Qed.

(** A session in which the embedding model is down: the blank line is
    skipped, the query is answered by the error line, QUIT in capitals ends
    the session and the line after it is not read. *)
Example session_with_failing_query :
  fst (agent_main (Demo.env Demo.emb_down (Ret Demo.two_neighbors) Demo.gen_ok [])
         [Typed "   "; Typed Demo.query; Typed "QUIT"; Typed "What else?"]
         Demo.stocked_world) =
  Ret (banner ++
       [PyStr.nl +:+ "Agent: Thinking...";
        "An unexpected error occurred: embedding model unavailable";
        "Agent: Goodbye!"]).
Proof. vm_compute. reflexivity. Qed.

(** A session in which everything answers, ended by the end of the input. *)
Example session_with_answer :
  fst (agent_main (Demo.env Demo.emb_ok (Ret Demo.two_neighbors) Demo.gen_ok [])
         [Typed Demo.query] Demo.stocked_world) =
  Ret (banner ++
       [PyStr.nl +:+ "Agent: Thinking...";
        PyStr.nl +:+ "Agent:" +:+ PyStr.nl +:+ "The council approved the budget [a1]."
        +:+ PyStr.nl;
        PyStr.nl +:+ "Agent: Goodbye!"]).
Proof. vm_compute. reflexivity. Qed.

(** An EOFError raised inside the agent ends the session like the end of
    the input: the farewell follows the thinking line and the next line is
    not read; Ctrl-C at the prompt ends it too. *)
Example session_cut_short :
  fst (agent_main (Demo.env (fun _ => Raise (EOFError "EOF when reading a line"))
                     (Ret Demo.two_neighbors) Demo.gen_ok [])
         [Typed Demo.query; Typed "What else?"] Demo.stocked_world) =
  Ret (banner ++ [PyStr.nl +:+ "Agent: Thinking..."; PyStr.nl +:+ "Agent: Goodbye!"])
  /\ fst (agent_main (Demo.env Demo.emb_ok (Ret Demo.two_neighbors) Demo.gen_ok [])
            [CtrlC; Typed Demo.query] Demo.stocked_world) =
     Ret (banner ++ [PyStr.nl +:+ "Agent: Goodbye!"]).
Proof. split; vm_compute; reflexivity. Qed.

(** * Further properties of the ingestion *)

(** X7. How the enrichment producers fail.  The two summarizers and the NL
    API and spaCy extractors never raise: each returns a value, the empty
    default when its service raises or when spaCy is not loaded.  The
    Vertex AI extractor returns the empty dict when the generative call raises
    anything but JSONDecodeError and when the model's text is not JSON; when
    the generative call raises JSONDecodeError, its first handler reads
    [response.text] and the producer raises: UnboundLocalError when the call
    itself had raised, the same JSONDecodeError when reading the text had. *)
Theorem producers_failure_behaviour (E : Env) (text : string) (w : world) :
  (exists s, fst (summarize_gemini E text w) = Ret s
     /\ (forall e, generate_content E (Prompts.GEMINI_SUMMARIZATION_PROMPT text) false
                   = Raise e -> s = ""))
  /\ (exists s, fst (summarize_textrank E text 3 w) = Ret s
        /\ (nlp_spacy_ok E = false -> s = "")
        /\ (forall e, textrank_sentences E text 3 = Raise e -> s = ""))
  /\ (exists l, fst (extract_entities_nl_api E text w) = Ret l
        /\ (forall e, analyze_entities E text = Raise e -> l = []))
  /\ (exists l, fst (extract_entities_spacy E text w) = Ret l
        /\ (nlp_spacy_ok E = false -> l = [])
        /\ (forall e, spacy_ents E text = Raise e -> l = []))
  /\ ((forall msg, generate_content E (Prompts.ENTITY_EXTRACTION_PROMPT text) true
                   <> Raise (JSONDecodeError msg)) ->
      exists x, fst (extract_entities_vertex_ai E text w) = Ret x
        /\ (forall e, generate_content E (Prompts.ENTITY_EXTRACTION_PROMPT text) true
                      = Raise e -> x = VDict [])
        /\ (forall t, generate_content E (Prompts.ENTITY_EXTRACTION_PROMPT text) true
                      = Ret t ->
                      json_loads E (default (PyStr.strip t)
                                      (re_search_fence E (PyStr.strip t))) = None ->
                      x = VDict []))
  /\ (forall msg, generate_content E (Prompts.ENTITY_EXTRACTION_PROMPT text) true
                  = Raise (JSONDecodeError msg) ->
      fst (extract_entities_vertex_ai E text w) =
      Raise (if response_bound E (Prompts.ENTITY_EXTRACTION_PROMPT text) true
             then JSONDecodeError msg
             else UnboundLocalError (unbound_local_message E "response"))).
Proof.
  rewrite summarize_gemini_run, summarize_textrank_run, extract_entities_vertex_ai_run,
    extract_entities_nl_api_run, extract_entities_spacy_run. cbn [fst].
  split; [|split; [|split; [|split; [|split]]]].
  - eexists. split; [reflexivity|]. intros e He. unfold gemini_summary_of. by rewrite He.
  - eexists. split; [reflexivity|]. split.
    + intros Hs. unfold textrank_summary_of. by rewrite Hs.
    + intros e He. unfold textrank_summary_of. rewrite He. by destruct (nlp_spacy_ok E).
  - eexists. split; [reflexivity|]. intros e He. unfold nl_entities_of. by rewrite He.
  - eexists. split; [reflexivity|]. split.
    + intros Hs. unfold spacy_entities_of. by rewrite Hs.
    + intros e He. unfold spacy_entities_of. rewrite He. by destruct (nlp_spacy_ok E).
  - intros Hjson. rewrite (vertex_extraction_fault_none E _ Hjson).
    eexists. split; [reflexivity|]. split.
    + intros e He. unfold vertex_extraction_of. by rewrite He.
    + intros t Ht Hj. unfold vertex_extraction_of. rewrite Ht. cbn zeta. by rewrite Hj.
  - intros msg Hgen. unfold vertex_extraction_fault. by rewrite Hgen.
Qed.

(** The failing handler of the extractor, evaluated: the generative call
    raises JSONDecodeError, the producer ends with UnboundLocalError, and the
    step of the row, which has no handler around the producer, ends with it
    before the embedding is asked for. *)
Example extraction_handler_raises :
  let gen := fun (_ : string) (json_mode : bool) =>
               if json_mode then Raise (JSONDecodeError "Expecting value")
               else Ret "A summary." in
  let E := Demo.env Demo.emb_ok (Ret []) gen [] in
  fst (extract_entities_vertex_ai E "Some article." Demo.empty_world)
    = Raise (UnboundLocalError
               "cannot access local variable 'response' where it is not associated with a value")
  /\ fst (process_row E (Demo.short_row 1) Demo.empty_world)
     = Raise (UnboundLocalError
                "cannot access local variable 'response' where it is not associated with a value")
  /\ store (snd (process_row E (Demo.short_row 1) Demo.empty_world)) = ∅
  /\ calls is_embed (trace (snd (process_row E (Demo.short_row 1) Demo.empty_world))) = 0%nat.
Proof. cbv zeta. repeat split; vm_compute; reflexivity. Qed.

Lemma record_of_fields (E : Env) (row : Row) :
  record_of E row !! "gemini_summary"
    = Some (VStr (gemini_summary_of E (row_document row)))
  /\ record_of E row !! "vertex_ai_extraction"
    = Some (vertex_extraction_of E (row_document row)).
Proof. split; reflexivity. Qed.

(** X8. Ingestion followed by assembly.  Once a row has been stored, the
    context assembler asked for its id returns one entry with that id, whose
    summary is what [summarize_gemini] returned for the row and whose
    key_info is [str] of what [extract_entities_vertex_ai] returned.  The
    default texts of the assembler are therefore never used for an ingested
    row: when the summarizer failed, the summary is the empty string. *)
Theorem ingest_then_assemble (E : Env) (row : Row) (w : world) (v : embedding) :
  get_embeddings E (row_document row) = Ret v ->
  firestore_set_fault E (py_str E (row_id row)) = None ->
  firestore_get_fault E (py_str E (row_id row)) = None ->
  forall s x,
    fst (summarize_gemini E (row_document row) w) = Ret s ->
    fst (extract_entities_vertex_ai E (row_document row) w) = Ret x ->
    fst (process_row E row w) = Ret tt
    /\ fst (_get_article_context E [py_str E (row_id row)] (snd (process_row E row w)))
       = Ret [mkContextEntry (py_str E (row_id row)) (VStr s) (py_str E x)]
    /\ (forall e, generate_content E (Prompts.GEMINI_SUMMARIZATION_PROMPT (row_document row))
                    false = Raise e -> s = "").
Proof.
  intros Hemb Hset Hget s x Hs Hx.
  rewrite summarize_gemini_run in Hs. cbn [fst] in Hs. injection Hs as <-.
  apply extract_entities_vertex_ai_returns in Hx as [Hfault ->].
  fold (doc_id_of E row) in *.
  assert (store (snd (process_row E row w)) !! doc_id_of E row = Some (record_of E row))
    as Hstored.
  { rewrite process_row_effect. unfold row_effect. rewrite Hfault, Hemb, Hset.
    destruct (index_endpoint_ok E);
      [destruct (upsert_fault E (doc_id_of E row) v)|];
      cbn [snd apply_effect store eff_sets write_all fold_left fst];
      by rewrite lookup_insert_eq. }
  split; [|split].
  - rewrite process_row_effect. unfold row_effect. rewrite Hfault, Hemb, Hset.
    destruct (index_endpoint_ok E); [destruct (upsert_fault E (doc_id_of E row) v)|]; done.
  - rewrite get_article_context_ok.
    + cbn [fst]. unfold found_entries. cbn [omap list_omap]. rewrite Hstored.
      cbn [fmap option_fmap option_map]. unfold context_entry.
      destruct (record_of_fields E row) as [-> ->]. reflexivity.
    + intros id Hid. each_elem Hid. exact Hget.
  - intros e He. unfold gemini_summary_of. by rewrite He.
Qed.

Lemma ingest_then_assemble_witness :
  fst (process_row (Demo.env Demo.emb_ok (Ret []) Demo.gen_down []) (Demo.short_row 1)
         Demo.empty_world) = Ret tt
  /\ fst (_get_article_context (Demo.env Demo.emb_ok (Ret []) Demo.gen_down [])
            [py_str (Demo.env Demo.emb_ok (Ret []) Demo.gen_down [])
               (row_id (Demo.short_row 1))]
            (snd (process_row (Demo.env Demo.emb_ok (Ret []) Demo.gen_down [])
                    (Demo.short_row 1) Demo.empty_world)))
     = Ret [mkContextEntry
              (py_str (Demo.env Demo.emb_ok (Ret []) Demo.gen_down [])
                 (row_id (Demo.short_row 1)))
              (VStr "")
              (py_str (Demo.env Demo.emb_ok (Ret []) Demo.gen_down []) (VDict []))]
  /\ (forall e,
        generate_content (Demo.env Demo.emb_ok (Ret []) Demo.gen_down [])
          (Prompts.GEMINI_SUMMARIZATION_PROMPT (row_document (Demo.short_row 1))) false
        = Raise e -> "" = "").
Proof.
  exact (ingest_then_assemble
           (Demo.env Demo.emb_ok (Ret []) Demo.gen_down []) (Demo.short_row 1)
           Demo.empty_world Demo.vec eq_refl eq_refl eq_refl "" (VDict [])
           eq_refl eq_refl).
Defined.

(** X9. The vector index may be missing or failing without harm to the row:
    when the endpoint handle is not set no upsert is attempted, and when the
    upsert raises the error is swallowed; either way the step of a row whose
    extraction producer and embedding returned and whose store write did not
    raise returns normally, the record is stored under the row's id and the
    index is unchanged. *)
Theorem index_failure_keeps_record (E : Env) (row : Row) (w : world) (v : embedding) :
  (forall msg,
     generate_content E (Prompts.ENTITY_EXTRACTION_PROMPT (row_document row)) true
     <> Raise (JSONDecodeError msg)) ->
  get_embeddings E (row_document row) = Ret v ->
  firestore_set_fault E (py_str E (row_id row)) = None ->
  index_endpoint_ok E = false
  \/ (exists e, upsert_fault E (py_str E (row_id row)) v = Some e) ->
  exists w',
    process_row E row w = (Ret tt, w')
    /\ store w' = <[py_str E (row_id row) := record_of E row]> (store w)
    /\ index w' = index w
    /\ calls is_doc_set (trace w') = S (calls is_doc_set (trace w))
    /\ (index_endpoint_ok E = false ->
        calls is_upsert (trace w') = calls is_upsert (trace w)).
Proof.
  intros Hjson Hemb Hset Hidx. fold (doc_id_of E row) in *.
  rewrite process_row_effect. unfold row_effect.
  rewrite (vertex_extraction_fault_none E _ Hjson), Hemb, Hset.
  destruct (index_endpoint_ok E) eqn:Hep.
  - destruct Hidx as [Hidx|(e & Hup)]; [discriminate|]. rewrite Hup.
    eexists. cbn [fst snd]. split; [reflexivity|]. unfold apply_effect, enrichment_events.
    cbn [store index trace eff_sets eff_upserts eff_events write_all fold_left fst snd].
    split; [done|]. split; [done|]. split; [|discriminate].
    rewrite calls_app. cbn. lia.
  - eexists. cbn [fst snd]. split; [reflexivity|]. unfold apply_effect, enrichment_events.
    cbn [store index trace eff_sets eff_upserts eff_events write_all fold_left fst snd].
    split; [done|]. split; [done|]. split; [|intros _]; rewrite calls_app; cbn; lia.
Qed.

Lemma index_failure_keeps_record_witness :
  exists w',
    process_row (Faults.with_index true Faults.upsert_down
                   (Demo.env Demo.emb_ok (Ret []) Demo.gen_ok []))
      (Demo.short_row 1) Demo.empty_world = (Ret tt, w')
    /\ store w' =
       <[py_str (Faults.with_index true Faults.upsert_down
                   (Demo.env Demo.emb_ok (Ret []) Demo.gen_ok []))
           (row_id (Demo.short_row 1))
         := record_of (Faults.with_index true Faults.upsert_down
                         (Demo.env Demo.emb_ok (Ret []) Demo.gen_ok []))
              (Demo.short_row 1)]> (store Demo.empty_world)
    /\ index w' = index Demo.empty_world
    /\ calls is_doc_set (trace w') = S (calls is_doc_set (trace Demo.empty_world))
    /\ (index_endpoint_ok (Faults.with_index true Faults.upsert_down
                             (Demo.env Demo.emb_ok (Ret []) Demo.gen_ok [])) = false ->
        calls is_upsert (trace w') = calls is_upsert (trace Demo.empty_world)).
Proof.
  apply (index_failure_keeps_record
           (Faults.with_index true Faults.upsert_down
              (Demo.env Demo.emb_ok (Ret []) Demo.gen_ok []))
           (Demo.short_row 1) Demo.empty_world Demo.vec).
  - intros msg. discriminate.
  - reflexivity.
  - reflexivity.
  - right. by exists (ServiceError "Vector Search unavailable").
Defined.

(** X10. A Firestore write that raises is not caught: when the extraction
    producer and the embedding of the row have returned and the write raises,
    the row's step raises that exception, the loop stops there and the rows
    after it are not processed; nothing was stored for the row and no upsert
    was made. *)
Theorem store_write_error_stops_the_run (E : Env) (row : Row) (rest : list Row)
    (w : world) (v : embedding) (e : exn) :
  (forall msg,
     generate_content E (Prompts.ENTITY_EXTRACTION_PROMPT (row_document row)) true
     <> Raise (JSONDecodeError msg)) ->
  get_embeddings E (row_document row) = Ret v ->
  firestore_set_fault E (py_str E (row_id row)) = Some e ->
  exists w',
    process_row E row w = (Raise e, w')
    /\ for_each (process_row E) (row :: rest) w = (Raise e, w')
    /\ store w' = store w /\ index w' = index w
    /\ calls is_upsert (trace w') = calls is_upsert (trace w).
Proof.
  intros Hjson Hemb Hset. fold (doc_id_of E row) in *.
  assert (process_row E row w =
          (Raise e, apply_effect
                      (Effect [] [] (enrichment_events row
                                     ++ [EvDocSet (doc_id_of E row) (record_of E row)])) w))
    as Hrun.
  { rewrite process_row_effect. unfold row_effect.
    by rewrite (vertex_extraction_fault_none E _ Hjson), Hemb, Hset. }
  eexists. split; [exact Hrun|]. split; [|split; [done|split; [done|]]].
  - cbn [for_each]. unfold bind. by rewrite Hrun.
  - unfold apply_effect, enrichment_events. cbn [trace eff_events].
    rewrite calls_app. cbn. lia.
Qed.

Lemma store_write_error_stops_the_run_witness :
  exists w',
    process_row (Faults.with_set_fault Faults.firestore_down
                   (Demo.env Demo.emb_ok (Ret []) Demo.gen_ok []))
      (Demo.short_row 1) Demo.empty_world
      = (Raise (ServiceError "Firestore unavailable"), w')
    /\ for_each (process_row (Faults.with_set_fault Faults.firestore_down
                                (Demo.env Demo.emb_ok (Ret []) Demo.gen_ok [])))
         (Demo.short_row 1 :: [Demo.short_row 2]) Demo.empty_world
       = (Raise (ServiceError "Firestore unavailable"), w')
    /\ store w' = store Demo.empty_world /\ index w' = index Demo.empty_world
    /\ calls is_upsert (trace w') = calls is_upsert (trace Demo.empty_world).
Proof.
  apply (store_write_error_stops_the_run
           (Faults.with_set_fault Faults.firestore_down
              (Demo.env Demo.emb_ok (Ret []) Demo.gen_ok []))
           (Demo.short_row 1) [Demo.short_row 2] Demo.empty_world Demo.vec
           (ServiceError "Firestore unavailable")).
  - intros msg. discriminate.
  - reflexivity.
  - reflexivity.
Defined.

(** X11. Whatever makes the loader fail (the download, the parse, the pool
    size, the sampling), [load_and_sample_data] raises that error unchanged
    and [run_pipeline] returns without having called any service: the world
    is left exactly as it was. *)
Theorem loader_failure_aborts_run (E : Env) (samples : Z) (w : world) (e : exn) :
  fst (load_and_sample_data E samples (Some 1000) 42 w) = Raise e ->
  run_pipeline E samples w = (Ret tt, w)
  /\ (forall e', read_dataset E = Raise e' -> e = e').
Proof.
  rewrite load_and_sample_data_run. cbn [fst]. intros Hload. split.
  - rewrite run_pipeline_effect. unfold pipeline_effect. rewrite Hload.
    cbn [fst snd]. by rewrite apply_effect_nil.
  - intros e' Hread. unfold load_result in Hload. rewrite Hread in Hload. congruence.
Qed.

Lemma loader_failure_aborts_run_witness :
  run_pipeline (Faults.with_dataset (Raise (ServiceError "blob not found"))
                  (Demo.env Demo.emb_ok (Ret []) Demo.gen_ok []))
    10 Demo.stocked_world = (Ret tt, Demo.stocked_world)
  /\ (forall e',
        read_dataset (Faults.with_dataset (Raise (ServiceError "blob not found"))
                        (Demo.env Demo.emb_ok (Ret []) Demo.gen_ok [])) = Raise e' ->
        ServiceError "blob not found" = e').
Proof.
  exact (loader_failure_aborts_run
           (Faults.with_dataset (Raise (ServiceError "blob not found"))
              (Demo.env Demo.emb_ok (Ret []) Demo.gen_ok []))
           10 Demo.stocked_world (ServiceError "blob not found") eq_refl).
Defined.

(** ** Which keys a run touches *)

Lemma write_all_untouched {V} (ws : list (string * V)) :
  forall (m : gmap string V) (k : string),
  k ∉ map fst ws -> write_all ws m !! k = m !! k.
Proof.
  induction ws as [|[k' v'] ws IH]; intros m k Hk; [done|].
  cbn [write_all fold_left fst snd]. fold (write_all ws (<[k':=v']> m)).
  cbn [map fst] in Hk. apply not_elem_of_cons in Hk as [Hne Hk].
  rewrite (IH _ _ Hk). by rewrite lookup_insert_ne.
Qed.

Lemma write_all_keeps {V} (ws : list (string * V)) :
  forall (m : gmap string V) (k : string),
  is_Some (m !! k) -> is_Some (write_all ws m !! k).
Proof.
  induction ws as [|[k' v'] ws IH]; intros m k Hk; [done|].
  cbn [write_all fold_left fst snd]. fold (write_all ws (<[k':=v']> m)).
  apply IH. destruct (decide (k' = k)) as [->|Hne].
  - rewrite lookup_insert_eq. by eexists.
  - by rewrite lookup_insert_ne.
Qed.

Lemma write_all_written {V} (ws : list (string * V)) :
  forall (m : gmap string V) (k : string),
  k ∈ map fst ws -> is_Some (write_all ws m !! k).
Proof.
  induction ws as [|[k' v'] ws IH]; intros m k Hk; [by apply elem_of_nil in Hk|].
  cbn [write_all fold_left fst snd]. fold (write_all ws (<[k':=v']> m)).
  cbn [map fst] in Hk. destruct (decide (k ∈ map fst ws)) as [Hin|Hnin].
  - by apply IH.
  - apply elem_of_cons in Hk as [->|Hk]; [|done].
    apply write_all_keeps. rewrite lookup_insert_eq. by eexists.
Qed.

(** The rows of a run in which no store write raises: one write per row
    whose embedding returned, in the order of the rows. *)
Lemma rows_effect_ok (E : Env) (rows : list Row) :
  (forall row, row ∈ rows -> vertex_extraction_fault E (row_document row) = None) ->
  (forall row, row ∈ rows -> firestore_set_fault E (doc_id_of E row) = None) ->
  fst (rows_effect E rows) = Ret tt
  /\ eff_sets (snd (rows_effect E rows)) =
     map (fun row => (doc_id_of E row, record_of E row)) (List.filter (embeds E) rows)
  /\ calls is_doc_set (eff_events (snd (rows_effect E rows))) =
     length (List.filter (embeds E) rows).
Proof.
  induction rows as [|row rows IH]; intros Hx Hok; [done|].
  assert (forall r, r ∈ rows -> vertex_extraction_fault E (row_document r) = None) as Hx'
    by (intros r Hr; apply Hx; by right).
  assert (forall r, r ∈ rows -> firestore_set_fault E (doc_id_of E r) = None) as Hok'
    by (intros r Hr; apply Hok; by right).
  destruct (IH Hx' Hok') as (Hr & Hsets & Hcalls).
  cbn [rows_effect List.filter]. unfold row_effect, embeds.
  rewrite (Hx row) by left. rewrite (Hok row) by left.
  destruct (rows_effect E rows) as [r d]. cbn [fst snd] in Hr, Hsets, Hcalls. subst r.
  destruct (get_embeddings E (row_document row)) as [v|e];
    [destruct (index_endpoint_ok E);
       [destruct (upsert_fault E (doc_id_of E row) v)|]|];
    cbn [fst snd effect_app eff_sets eff_events map length app];
    rewrite ?Hsets; (split; [done|]); (split; [done|]);
    unfold enrichment_events; rewrite !calls_app, Hcalls; cbn; reflexivity.
Qed.

(** X12. A run over rows for none of which the extraction producer or the
    store write raises: the loop returns normally after exactly one store
    write per row whose embedding returned; every such row's id is then in
    the store, and every key that is the id of no such row holds what it held
    before. *)
Theorem run_writes_one_record_per_embedded_row (E : Env) (rows : list Row) (w : world) :
  (forall row msg, row ∈ rows ->
     generate_content E (Prompts.ENTITY_EXTRACTION_PROMPT (row_document row)) true
     <> Raise (JSONDecodeError msg)) ->
  (forall row, row ∈ rows -> firestore_set_fault E (py_str E (row_id row)) = None) ->
  exists w',
    for_each (process_row E) rows w = (Ret tt, w')
    /\ calls is_doc_set (trace w') =
       (calls is_doc_set (trace w) + length (List.filter (embeds E) rows))%nat
    /\ (forall row, row ∈ rows -> embeds E row = true ->
          is_Some (store w' !! py_str E (row_id row)))
    /\ (forall k, k ∉ map (fun row => py_str E (row_id row)) (List.filter (embeds E) rows) ->
          store w' !! k = store w !! k).
Proof.
  intros Hjson Hok.
  assert (forall row, row ∈ rows -> vertex_extraction_fault E (row_document row) = None)
    as Hx.
  { intros row Hin. apply vertex_extraction_fault_none. intros msg. by apply Hjson. }
  destruct (rows_effect_ok E rows Hx Hok) as (Hr & Hsets & Hcalls).
  eexists. rewrite for_each_rows_effect, Hr. split; [reflexivity|].
  unfold apply_effect. cbn [store trace]. rewrite Hsets.
  assert (map fst (map (fun row => (doc_id_of E row, record_of E row))
                     (List.filter (embeds E) rows))
          = map (fun row => py_str E (row_id row)) (List.filter (embeds E) rows)) as Hkeys.
  { rewrite map_map. reflexivity. }
  split; [|split].
  - rewrite calls_app, Hcalls. lia.
  - intros row Hin Hemb. apply write_all_written. rewrite Hkeys.
    apply list_elem_of_fmap. exists row. split; [done|].
    apply list_elem_of_In, filter_In. split; [by apply list_elem_of_In|done].
  - intros k Hk. apply write_all_untouched. by rewrite Hkeys.
Qed.

Lemma run_writes_one_record_per_embedded_row_witness :
  exists w',
    for_each (process_row (Demo.env Demo.emb_ok (Ret []) Demo.gen_ok [])) Demo.two_rows
      Demo.stocked_world = (Ret tt, w')
    /\ calls is_doc_set (trace w') =
       (calls is_doc_set (trace Demo.stocked_world)
        + length (List.filter (embeds (Demo.env Demo.emb_ok (Ret []) Demo.gen_ok []))
                    Demo.two_rows))%nat
    /\ (forall row, row ∈ Demo.two_rows ->
          embeds (Demo.env Demo.emb_ok (Ret []) Demo.gen_ok []) row = true ->
          is_Some (store w' !! py_str (Demo.env Demo.emb_ok (Ret []) Demo.gen_ok [])
                                 (row_id row)))
    /\ (forall k,
          k ∉ map (fun row => py_str (Demo.env Demo.emb_ok (Ret []) Demo.gen_ok [])
                                (row_id row))
                (List.filter (embeds (Demo.env Demo.emb_ok (Ret []) Demo.gen_ok []))
                   Demo.two_rows) ->
          store w' !! k = store Demo.stocked_world !! k).
Proof.
  apply (run_writes_one_record_per_embedded_row
           (Demo.env Demo.emb_ok (Ret []) Demo.gen_ok []) Demo.two_rows Demo.stocked_world).
  - intros row msg _. discriminate.
  - intros row _. reflexivity.
Defined.

(** X13. Ingestion never removes anything: every key of the document
    store and of the vector index before a run is still a key after it,
    however the run ends. *)
Theorem run_pipeline_never_deletes (E : Env) (samples : Z) (w : world) :
  dom (store w) ⊆ dom (store (snd (run_pipeline E samples w)))
  /\ dom (index w) ⊆ dom (index (snd (run_pipeline E samples w))).
Proof.
  rewrite run_pipeline_effect. cbn [snd]. unfold apply_effect. cbn [store index].
  split; intros k Hk; apply elem_of_dom, write_all_keeps; by apply elem_of_dom.
Qed.

(** ** The sample *)

(** X14. With a word limit, every row the loader returns has fewer words
    than the limit, and the loader returns rows only when the filtered pool
    has at least as many rows as were asked for.  What is assumed of
    DataFrame.sample is that it returns rows of the frame it is given. *)
Theorem sampled_rows_under_word_limit (E : Env) (n_samples max_words random_state : Z)
    (w : world) (rows : list Row) :
  (forall n s pool out, df_sample E n s pool = Ret out -> out ⊆ pool) ->
  fst (load_and_sample_data E n_samples (Some max_words) random_state w) = Ret rows ->
  (forall r, r ∈ rows -> Z.of_nat (length (PyStr.split (row_document r))) < max_words)
  /\ exists full_df,
       read_dataset E = Ret full_df
       /\ rows ⊆ full_df
       /\ n_samples <= Z.of_nat (length (filter_pool (Some max_words) full_df)).
Proof.
  intros Hsample. rewrite load_and_sample_data_run. cbn [fst]. unfold load_result.
  destruct (read_dataset E) as [full_df|e]; [|discriminate].
  destruct (bool_decide (is_Some (Some max_words)) && negb (has_text_column full_df));
    [discriminate|]. cbn zeta.
  destruct (Z.of_nat (length (filter_pool (Some max_words) full_df)) <? n_samples) eqn:Hlt;
    [discriminate|].
  intros Hs. apply Hsample in Hs. apply Z.ltb_ge in Hlt.
  assert (forall r, r ∈ rows -> r ∈ full_df /\ under_max_words max_words r = true) as Hin.
  { intros r Hr. apply Hs in Hr. cbn [filter_pool] in Hr.
    apply list_elem_of_In, filter_In in Hr as [Hr Hu]. split; [by apply list_elem_of_In|done]. }
  split.
  - intros r Hr. apply Hin in Hr as [_ Hu]. unfold under_max_words in Hu. by apply Z.ltb_lt.
  - exists full_df. split; [done|]. split; [|done]. intros r Hr. by apply Hin.
Qed.

Lemma sampled_rows_under_word_limit_witness :
  (forall r, r ∈ Demo.two_rows ->
     Z.of_nat (length (PyStr.split (row_document r))) < 1000)
  /\ exists full_df,
       read_dataset (Demo.env Demo.emb_ok (Ret []) Demo.gen_ok
                       (Demo.two_rows ++ [Demo.long_row])) = Ret full_df
       /\ Demo.two_rows ⊆ full_df
       /\ 2 <= Z.of_nat (length (filter_pool (Some 1000) full_df)).
Proof.
  apply (sampled_rows_under_word_limit
           (Demo.env Demo.emb_ok (Ret []) Demo.gen_ok
              (Demo.two_rows ++ [Demo.long_row]))
           2 1000 42 Demo.empty_world Demo.two_rows).
  - intros n s pool out Hout. injection Hout as <-. apply subseteq_take.
  - vm_compute. reflexivity.
Defined.

(** ** The stored summary is trimmed *)

Lemma lstrip_head (s : string) (c : ascii) (r : string) :
  PyStr.lstrip s = String c r -> PyStr.isspace c = false.
Proof.
  induction s as [|a s IH]; [discriminate|]. cbn [PyStr.lstrip].
  destruct (PyStr.isspace a) eqn:Ha; [exact IH|]. by intros [= <- _].
Qed.

Lemma rstrip_head (c : ascii) (r : string) :
  PyStr.isspace c = false -> exists r', PyStr.rstrip (String c r) = String c r'.
Proof.
  intros Hc. cbn [PyStr.rstrip]. destruct (PyStr.rstrip r); [|by eexists].
  rewrite Hc. by eexists.
Qed.

Lemma rstrip_last (s : string) (c : ascii) :
  PyText.last_char (PyStr.rstrip s) = Some c -> PyStr.isspace c = false.
Proof.
  revert c. induction s as [|a s IH]; intros c; [discriminate|].
  cbn [PyStr.rstrip]. destruct (PyStr.rstrip s) as [|b r] eqn:Hr.
  - destruct (PyStr.isspace a) eqn:Ha; [discriminate|].
    unfold PyText.last_char. cbn. by intros [= <-].
  - unfold PyText.last_char in *. cbn [list_ascii_of_string] in *.
    rewrite last_cons_cons. apply IH.
Qed.

Lemma strip_trimmed (s : string) :
  (forall c r, PyStr.strip s = String c r -> PyStr.isspace c = false)
  /\ (forall c, PyText.last_char (PyStr.strip s) = Some c -> PyStr.isspace c = false).
Proof.
  unfold PyStr.strip. split; [|intros c; apply rstrip_last].
  intros c r Hs. destruct (PyStr.lstrip s) as [|c0 r0] eqn:Hl; [discriminate|].
  pose proof (lstrip_head _ _ _ Hl) as Hc0.
  destruct (rstrip_head c0 r0 Hc0) as (r' & Hr'). rewrite Hr' in Hs.
  by injection Hs as <- _.
Qed.

(** X15. What [summarize_gemini] returns, and so what is stored as
    gemini_summary, neither starts nor ends with a white-space character:
    the model's text is trimmed here (unlike in the agent's synthesizer). *)
Theorem gemini_summary_is_trimmed (E : Env) (text : string) (w : world) (s : string) :
  fst (summarize_gemini E text w) = Ret s ->
  (forall c r, s = String c r -> PyStr.isspace c = false)
  /\ (forall c, PyText.last_char s = Some c -> PyStr.isspace c = false).
Proof.
  rewrite summarize_gemini_run. cbn [fst]. intros [= <-]. unfold gemini_summary_of.
  destruct (generate_content E _ false) as [t|e]; [apply strip_trimmed|].
  split; [discriminate|]. unfold PyText.last_char. cbn. discriminate.
Qed.

Lemma gemini_summary_is_trimmed_witness :
  (forall c r, "The council approved the budget [a1]." = String c r ->
     PyStr.isspace c = false)
  /\ (forall c, PyText.last_char "The council approved the budget [a1]." = Some c ->
        PyStr.isspace c = false).
Proof.
  exact (gemini_summary_is_trimmed
           (Demo.env Demo.emb_ok (Ret []) Demo.gen_padded []) "Some article."
           Demo.empty_world "The council approved the budget [a1]." eq_refl).
Defined.
